(** * Rental Yield & ROI Optimizer: the financial core and the market
      look-ups of [app.py]

    The script [app.py] reads thirteen numbers from sidebar widgets and
    recomputes, top to bottom, a mortgage payment, the annual costs, the
    figures of a long-term and a short-term rental strategy, a payback
    period, the year-1 principal, a recommendation and a grade.

    Numbers.  The script computes with Python's [int] and binary64
    [float].  Two embeddings are given.

    - The statements over exact rationals [Q], compared with [==]: the
      model of the script's guards, branches and orderings.  What is
      proved over it are properties that rounding leaves alone
      (comparisons, signs, chains of monotone steps, values of guards),
      and properties on the ranges of the sidebar widgets, where the
      margins are far wider than any rounding.  The float
      [float('inf')] gets a constructor of its own; the integer
      [mortgage_years] is a [Z], as it is used as an exponent.

    - The same statements over primitive binary64 floats, in module
      [F64], which evaluate the script bit for bit on a concrete input.
      They show where the exact reading and the script part.

    Faults.  Python's [/] raises [ZeroDivisionError] on a zero divisor;
    the script is embedded in an error monad in which every division by
    a variable goes through [Py.truediv].  Divisions by the literals 100
    and 12 cannot raise and are written with [/]. *)

From Stdlib Require Import QArith Qabs Qpower Qminmax Lqa ZArith Lia List Bool.
From Stdlib Require Strings.String.
From Stdlib Require Floats.PrimFloat Floats.SpecFloat Floats.FloatOps.
Import ListNotations.
Set Warnings "-inexact-float".
Import String.StringSyntax.
Delimit Scope string_scope with string.

Local Open Scope Q_scope.

(** ** Python built-ins used by the script *)

Module Py.

Inductive exn : Type := ZeroDivisionError.

Inductive result (A : Type) : Type :=
| Ok (a : A)
| Raise (e : exn).
Arguments Ok {A} a.
Arguments Raise {A} e.

Definition bind {A B : Type} (c : result A) (k : A -> result B) : result B :=
  match c with
  | Ok a => k a
  | Raise e => Raise e
  end.

(** [a > b] and [a >= b]. *)
Definition gt (a b : Q) : bool := negb (Qle_bool a b).
Definition ge (a b : Q) : bool := Qle_bool b a.

(** [max(a, b)] keeps its first argument unless the second is greater;
    [min(a, b)] keeps its first argument unless the second is smaller. *)
Definition max (a b : Q) : Q := if gt b a then b else a.
Definition min (a b : Q) : Q := if gt a b then b else a.

(** [a / b]. *)
Definition truediv (a b : Q) : result Q :=
  if Qeq_bool b 0 then Raise ZeroDivisionError else Ok (a / b).

(** A float that may be [float('inf')]. *)
Inductive float : Type :=
| Finite (q : Q)
| Inf.

End Py.

Import Py.

Notation "x <- c ;; k" := (Py.bind c (fun x => k))
  (at level 61, c at next level, right associativity).
Infix ">?" := Py.gt (at level 70, no associativity) : Q_scope.
Infix ">=?" := Py.ge (at level 70, no associativity) : Q_scope.

(** ** Sidebar inputs *)

Module In.
Record t : Type := mk {
  price : Q;
  rent_long : Q;
  rent_short : Q;
  occupancy_rate : Q;
  expenses : Q;
  initial_investment : Q;
  mortgage_amount : Q;
  interest_rate : Q;
  mortgage_years : Z;
  income_tax_rate : Q;
  property_tax_rate : Q;
  annual_maintenance_rate : Q;
  insurance_cost : Q
}.
End In.

(** ** The statements of the script

    Each assignment is a function of the variables its right-hand side
    reads, under the name of the variable it assigns. *)

(** *** Mortgage calculations *)

Definition monthly_rate (interest_rate : Q) : Q := (interest_rate / 100) / 12.

Definition num_payments (mortgage_years : Z) : Z := (mortgage_years * 12)%Z.

Definition monthly_mortgage (mortgage_amount interest_rate : Q) (mortgage_years : Z)
  : result Q :=
  if mortgage_amount >? 0 then
    let monthly_rate := monthly_rate interest_rate in
    let num_payments := num_payments mortgage_years in
    if monthly_rate >? 0 then
      truediv (mortgage_amount * (monthly_rate * (1 + monthly_rate) ^ num_payments))
              ((1 + monthly_rate) ^ num_payments - 1)
    else
      truediv mortgage_amount (inject_Z num_payments)
  else Ok 0.

(** *** Annual costs *)

Definition annual_property_tax (property_tax_rate price : Q) : Q :=
  (property_tax_rate / 100) * price.

Definition annual_maintenance (annual_maintenance_rate price : Q) : Q :=
  (annual_maintenance_rate / 100) * price.

Definition annual_mortgage_payments (monthly_mortgage : Q) : Q :=
  monthly_mortgage * 12.

Definition annual_insurance (insurance_cost : Q) : Q := insurance_cost.

Definition total_annual_costs
  (expenses annual_property_tax annual_maintenance annual_mortgage_payments
   annual_insurance : Q) : Q :=
  expenses * 12 + annual_property_tax + annual_maintenance
  + annual_mortgage_payments + annual_insurance.

(** *** Long-term rental *)

Definition annual_long_gross (rent_long : Q) : Q := rent_long * 12.

Definition annual_long_net_before_tax (annual_long_gross total_annual_costs : Q) : Q :=
  annual_long_gross - total_annual_costs.

Definition income_tax_long (annual_long_net_before_tax income_tax_rate : Q) : Q :=
  Py.max 0 (annual_long_net_before_tax * (income_tax_rate / 100)).

Definition annual_long_after_tax (annual_long_net_before_tax income_tax_long : Q) : Q :=
  annual_long_net_before_tax - income_tax_long.

Definition yield_long_gross (annual_long_gross price : Q) : result Q :=
  if price >? 0 then q <- truediv annual_long_gross price ;; Ok (q * 100) else Ok 0.

Definition yield_long_net (annual_long_after_tax price : Q) : result Q :=
  if price >? 0 then q <- truediv annual_long_after_tax price ;; Ok (q * 100) else Ok 0.

Definition roi_long (annual_long_after_tax initial_investment : Q) : result Q :=
  if initial_investment >? 0
  then q <- truediv annual_long_after_tax initial_investment ;; Ok (q * 100)
  else Ok 0.

Definition cash_flow_long (annual_long_after_tax : Q) : Q := annual_long_after_tax.

(** *** Short-term rental *)

Definition days_per_month : Q := 30.

Definition monthly_nights_booked (occupancy_rate : Q) : Q :=
  (occupancy_rate / 100) * days_per_month.

Definition annual_short_gross (rent_short monthly_nights_booked : Q) : Q :=
  rent_short * monthly_nights_booked * 12.

Definition annual_short_net_before_tax (annual_short_gross total_annual_costs : Q) : Q :=
  annual_short_gross - total_annual_costs.

Definition income_tax_short (annual_short_net_before_tax income_tax_rate : Q) : Q :=
  Py.max 0 (annual_short_net_before_tax * (income_tax_rate / 100)).

Definition annual_short_after_tax (annual_short_net_before_tax income_tax_short : Q) : Q :=
  annual_short_net_before_tax - income_tax_short.

Definition yield_short_gross (annual_short_gross price : Q) : result Q :=
  if price >? 0 then q <- truediv annual_short_gross price ;; Ok (q * 100) else Ok 0.

Definition yield_short_net (annual_short_after_tax price : Q) : result Q :=
  if price >? 0 then q <- truediv annual_short_after_tax price ;; Ok (q * 100) else Ok 0.

Definition roi_short (annual_short_after_tax initial_investment : Q) : result Q :=
  if initial_investment >? 0
  then q <- truediv annual_short_after_tax initial_investment ;; Ok (q * 100)
  else Ok 0.

Definition cash_flow_short (annual_short_after_tax : Q) : Q := annual_short_after_tax.

(** *** Payback period *)

Definition best_cash_flow (cash_flow_long cash_flow_short : Q) : Q :=
  Py.max cash_flow_long cash_flow_short.

Definition breakeven_years (initial_investment best_cash_flow : Q) : result Py.float :=
  if best_cash_flow >? 0
  then q <- truediv initial_investment best_cash_flow ;; Ok (Finite q)
  else Ok Inf.

(** *** Principal paid in the first year *)

(** One turn of [for month in range(12)], on the pair
    [(annual_principal_payment, remaining_balance)]. *)
Definition loop_body (monthly_rate monthly_mortgage : Q) (st : Q * Q) (month : nat)
  : Q * Q :=
  let '(annual_principal_payment, remaining_balance) := st in
  let interest_payment := remaining_balance * monthly_rate in
  let principal_payment := monthly_mortgage - interest_payment in
  (annual_principal_payment + principal_payment,
   remaining_balance - principal_payment).

Definition annual_principal_payment
  (mortgage_amount interest_rate monthly_mortgage annual_mortgage_payments : Q) : Q :=
  if (mortgage_amount >? 0) && (monthly_rate interest_rate >? 0) then
    fst (fold_left (loop_body (monthly_rate interest_rate) monthly_mortgage)
                   (seq 0 12) (0, mortgage_amount))
  else Py.min annual_mortgage_payments mortgage_amount.

(** *** Total return including equity building *)

Definition total_return_long (annual_long_after_tax annual_principal_payment : Q) : Q :=
  annual_long_after_tax + annual_principal_payment.

Definition total_return_short (annual_short_after_tax annual_principal_payment : Q) : Q :=
  annual_short_after_tax + annual_principal_payment.

Definition total_roi_long (total_return_long initial_investment : Q) : result Q :=
  if initial_investment >? 0
  then q <- truediv total_return_long initial_investment ;; Ok (q * 100)
  else Ok 0.

Definition total_roi_short (total_return_short initial_investment : Q) : result Q :=
  if initial_investment >? 0
  then q <- truediv total_return_short initial_investment ;; Ok (q * 100)
  else Ok 0.

(** *** Investment recommendation (left column)

    The three branches of the [if]/[elif]/[else], each with the figures
    its [st.write] lines print. *)

Inductive Recommendation : Type :=
| ShortTermMoreProfitable (yield_difference income_difference cash_flow_short : Q)
| LongTermMoreProfitable (yield_difference income_difference cash_flow_long : Q)
| SimilarProfitability (cash_flow_long cash_flow_short : Q).

Definition yield_difference (yield_short_net yield_long_net : Q) : Q :=
  Qabs (yield_short_net - yield_long_net).

Definition income_difference (annual_short_after_tax annual_long_after_tax : Q) : Q :=
  Qabs (annual_short_after_tax - annual_long_after_tax).

Definition recommendation
  (yield_short_net yield_long_net yield_difference income_difference
   cash_flow_long cash_flow_short : Q) : Recommendation :=
  if yield_short_net >? yield_long_net then
    ShortTermMoreProfitable yield_difference income_difference cash_flow_short
  else if yield_long_net >? yield_short_net then
    LongTermMoreProfitable yield_difference income_difference cash_flow_long
  else
    SimilarProfitability cash_flow_long cash_flow_short.

(** *** Investment summary (right column) *)

Inductive Strategy : Type := Short_term | Long_term.

Definition best_strategy (yield_short_net yield_long_net : Q) : Strategy :=
  if yield_short_net >? yield_long_net then Short_term else Long_term.

Definition best_roi (roi_long roi_short : Q) : Q := Py.max roi_long roi_short.

(** [ltv_ratio] is only assigned under [if mortgage_amount > 0]. *)
Definition ltv_ratio (mortgage_amount price : Q) : result (option Q) :=
  if mortgage_amount >? 0
  then q <- truediv mortgage_amount price ;; Ok (Some (q * 100))
  else Ok None.

Inductive Grade : Type := Excellent | Good | Moderate | Poor.

Definition grade (best_roi : Q) : Grade :=
  if best_roi >=? 15 then Excellent
  else if best_roi >=? 10 then Good
  else if best_roi >=? 5 then Moderate
  else Poor.

Inductive Color : Type := green | blue | orange | red.

Definition grade_color (best_roi : Q) : Color :=
  if best_roi >=? 15 then green
  else if best_roi >=? 10 then blue
  else if best_roi >=? 5 then orange
  else red.

(** ** The script

    [run] executes the statements in the order of the source; a raised
    exception ends the run.  [Out.t] holds the variables the page shows. *)

Module Out.
Record t : Type := mk {
  monthly_mortgage : Q;
  total_annual_costs : Q;
  annual_long_gross : Q;
  annual_long_net_before_tax : Q;
  income_tax_long : Q;
  annual_long_after_tax : Q;
  yield_long_gross : Q;
  yield_long_net : Q;
  roi_long : Q;
  cash_flow_long : Q;
  annual_short_gross : Q;
  annual_short_net_before_tax : Q;
  income_tax_short : Q;
  annual_short_after_tax : Q;
  yield_short_gross : Q;
  yield_short_net : Q;
  roi_short : Q;
  cash_flow_short : Q;
  breakeven_years : Py.float;
  annual_principal_payment : Q;
  total_roi_long : Q;
  total_roi_short : Q;
  recommendation : Recommendation;
  best_strategy : Strategy;
  best_cash_flow : Q;
  best_roi : Q;
  ltv_ratio : option Q;
  grade : Grade;
  grade_color : Color
}.
End Out.

Definition run (i : In.t) : result Out.t :=
  let price := In.price i in
  let initial_investment := In.initial_investment i in
  let mortgage_amount := In.mortgage_amount i in
  let interest_rate := In.interest_rate i in
  let income_tax_rate := In.income_tax_rate i in
  (* Mortgage calculations *)
  monthly_mortgage' <-
    monthly_mortgage mortgage_amount interest_rate (In.mortgage_years i) ;;
  (* Annual costs *)
  let annual_property_tax' := annual_property_tax (In.property_tax_rate i) price in
  let annual_maintenance' := annual_maintenance (In.annual_maintenance_rate i) price in
  let annual_mortgage_payments' := annual_mortgage_payments monthly_mortgage' in
  let annual_insurance' := annual_insurance (In.insurance_cost i) in
  let total_annual_costs' :=
    total_annual_costs (In.expenses i) annual_property_tax' annual_maintenance'
                       annual_mortgage_payments' annual_insurance' in
  (* Long-term rental *)
  let annual_long_gross' := annual_long_gross (In.rent_long i) in
  let annual_long_net_before_tax' :=
    annual_long_net_before_tax annual_long_gross' total_annual_costs' in
  let income_tax_long' := income_tax_long annual_long_net_before_tax' income_tax_rate in
  let annual_long_after_tax' :=
    annual_long_after_tax annual_long_net_before_tax' income_tax_long' in
  yield_long_gross' <- yield_long_gross annual_long_gross' price ;;
  yield_long_net' <- yield_long_net annual_long_after_tax' price ;;
  roi_long' <- roi_long annual_long_after_tax' initial_investment ;;
  let cash_flow_long' := cash_flow_long annual_long_after_tax' in
  (* Short-term rental *)
  let monthly_nights_booked' := monthly_nights_booked (In.occupancy_rate i) in
  let annual_short_gross' := annual_short_gross (In.rent_short i) monthly_nights_booked' in
  let annual_short_net_before_tax' :=
    annual_short_net_before_tax annual_short_gross' total_annual_costs' in
  let income_tax_short' := income_tax_short annual_short_net_before_tax' income_tax_rate in
  let annual_short_after_tax' :=
    annual_short_after_tax annual_short_net_before_tax' income_tax_short' in
  yield_short_gross' <- yield_short_gross annual_short_gross' price ;;
  yield_short_net' <- yield_short_net annual_short_after_tax' price ;;
  roi_short' <- roi_short annual_short_after_tax' initial_investment ;;
  let cash_flow_short' := cash_flow_short annual_short_after_tax' in
  (* Payback period *)
  let best_cash_flow' := best_cash_flow cash_flow_long' cash_flow_short' in
  breakeven_years' <- breakeven_years initial_investment best_cash_flow' ;;
  (* Principal paid in the first year, total return *)
  let annual_principal_payment' :=
    annual_principal_payment mortgage_amount interest_rate monthly_mortgage'
                             annual_mortgage_payments' in
  let total_return_long' := total_return_long annual_long_after_tax' annual_principal_payment' in
  let total_return_short' :=
    total_return_short annual_short_after_tax' annual_principal_payment' in
  total_roi_long' <- total_roi_long total_return_long' initial_investment ;;
  total_roi_short' <- total_roi_short total_return_short' initial_investment ;;
  (* Investment recommendation *)
  let yield_difference' := yield_difference yield_short_net' yield_long_net' in
  let income_difference' := income_difference annual_short_after_tax' annual_long_after_tax' in
  let recommendation' :=
    recommendation yield_short_net' yield_long_net' yield_difference' income_difference'
                   cash_flow_long' cash_flow_short' in
  (* Investment summary *)
  let best_strategy' := best_strategy yield_short_net' yield_long_net' in
  let best_cash_flow' := best_cash_flow cash_flow_long' cash_flow_short' in
  let best_roi' := best_roi roi_long' roi_short' in
  ltv_ratio' <- ltv_ratio mortgage_amount price ;;
  Ok (Out.mk monthly_mortgage' total_annual_costs'
        annual_long_gross' annual_long_net_before_tax' income_tax_long'
        annual_long_after_tax' yield_long_gross' yield_long_net' roi_long' cash_flow_long'
        annual_short_gross' annual_short_net_before_tax' income_tax_short'
        annual_short_after_tax' yield_short_gross' yield_short_net' roi_short'
        cash_flow_short' breakeven_years' annual_principal_payment'
        total_roi_long' total_roi_short' recommendation' best_strategy'
        best_cash_flow' best_roi' ltv_ratio' (grade best_roi') (grade_color best_roi')).

(** The default values of the sidebar widgets. *)
Definition default_inputs : In.t :=
  In.mk 300000 1200 80 65 400 60000 240000 3.5 30 28 0.8 1.5 800.

(** ** Slices of the script

    Runs of consecutive statements as functions of the variables they
    read, for the properties that vary one of those variables. *)

(** The statements between the two gross incomes and the left column's
    recommendation, as one function of the variables they read. *)
Definition comparison
  (price income_tax_rate total_annual_costs annual_long_gross annual_short_gross : Q)
  : result Recommendation :=
  let annual_long_net_before_tax' :=
    annual_long_net_before_tax annual_long_gross total_annual_costs in
  let income_tax_long' := income_tax_long annual_long_net_before_tax' income_tax_rate in
  let annual_long_after_tax' :=
    annual_long_after_tax annual_long_net_before_tax' income_tax_long' in
  yield_long_net' <- yield_long_net annual_long_after_tax' price ;;
  let cash_flow_long' := cash_flow_long annual_long_after_tax' in
  let annual_short_net_before_tax' :=
    annual_short_net_before_tax annual_short_gross total_annual_costs in
  let income_tax_short' := income_tax_short annual_short_net_before_tax' income_tax_rate in
  let annual_short_after_tax' :=
    annual_short_after_tax annual_short_net_before_tax' income_tax_short' in
  yield_short_net' <- yield_short_net annual_short_after_tax' price ;;
  let cash_flow_short' := cash_flow_short annual_short_after_tax' in
  Ok (recommendation yield_short_net' yield_long_net'
        (yield_difference yield_short_net' yield_long_net')
        (income_difference annual_short_after_tax' annual_long_after_tax')
        cash_flow_long' cash_flow_short').

(** The three statements from gross income to after-tax cash flow, for
    each strategy. *)
Definition long_after_tax_of (annual_long_gross total_annual_costs income_tax_rate : Q) : Q :=
  let annual_long_net_before_tax' :=
    annual_long_net_before_tax annual_long_gross total_annual_costs in
  let income_tax_long' := income_tax_long annual_long_net_before_tax' income_tax_rate in
  annual_long_after_tax annual_long_net_before_tax' income_tax_long'.

Definition short_after_tax_of (annual_short_gross total_annual_costs income_tax_rate : Q) : Q :=
  let annual_short_net_before_tax' :=
    annual_short_net_before_tax annual_short_gross total_annual_costs in
  let income_tax_short' := income_tax_short annual_short_net_before_tax' income_tax_rate in
  annual_short_after_tax annual_short_net_before_tax' income_tax_short'.

(** Two recommendations mirror each other when they announce opposite
    winners, or both a tie, with the same figures. *)
Definition mirrors (a b : Recommendation) : Prop :=
  match a, b with
  | ShortTermMoreProfitable yd id cf, LongTermMoreProfitable yd' id' cf'
  | LongTermMoreProfitable yd id cf, ShortTermMoreProfitable yd' id' cf' =>
      yd == yd' /\ id == id' /\ cf == cf'
  | SimilarProfitability cfl cfs, SimilarProfitability cfl' cfs' =>
      cfl == cfs' /\ cfs == cfl'
  | _, _ => False
  end.

(** ** Input sets *)

(** Monthly rent 1500 against a nightly rate of 100 at 50 % occupancy:
    both strategies gross 18000 a year. *)
Definition tie_inputs : In.t :=
  In.mk 300000 1500 100 50 400 60000 240000 3.5 30 28 0.8 1.5 800.


(** ** What a completed run computed

    [Ran i r] relates the inputs to the variables of a run that reached
    the end of the script: each variable satisfies its own statement,
    read on the variables assigned before it. *)

Record Ran (i : In.t) (r : Out.t) : Prop := {
  ran_monthly_mortgage :
    monthly_mortgage (In.mortgage_amount i) (In.interest_rate i) (In.mortgage_years i)
    = Ok (Out.monthly_mortgage r);
  ran_total_annual_costs :
    Out.total_annual_costs r
    = total_annual_costs (In.expenses i)
        (annual_property_tax (In.property_tax_rate i) (In.price i))
        (annual_maintenance (In.annual_maintenance_rate i) (In.price i))
        (annual_mortgage_payments (Out.monthly_mortgage r))
        (annual_insurance (In.insurance_cost i));
  ran_annual_long_gross :
    Out.annual_long_gross r = annual_long_gross (In.rent_long i);
  ran_annual_long_net_before_tax :
    Out.annual_long_net_before_tax r
    = annual_long_net_before_tax (Out.annual_long_gross r) (Out.total_annual_costs r);
  ran_income_tax_long :
    Out.income_tax_long r
    = income_tax_long (Out.annual_long_net_before_tax r) (In.income_tax_rate i);
  ran_annual_long_after_tax :
    Out.annual_long_after_tax r
    = annual_long_after_tax (Out.annual_long_net_before_tax r) (Out.income_tax_long r);
  ran_yield_long_gross :
    yield_long_gross (Out.annual_long_gross r) (In.price i) = Ok (Out.yield_long_gross r);
  ran_yield_long_net :
    yield_long_net (Out.annual_long_after_tax r) (In.price i) = Ok (Out.yield_long_net r);
  ran_roi_long :
    roi_long (Out.annual_long_after_tax r) (In.initial_investment i) = Ok (Out.roi_long r);
  ran_cash_flow_long :
    Out.cash_flow_long r = cash_flow_long (Out.annual_long_after_tax r);
  ran_annual_short_gross :
    Out.annual_short_gross r
    = annual_short_gross (In.rent_short i) (monthly_nights_booked (In.occupancy_rate i));
  ran_annual_short_net_before_tax :
    Out.annual_short_net_before_tax r
    = annual_short_net_before_tax (Out.annual_short_gross r) (Out.total_annual_costs r);
  ran_income_tax_short :
    Out.income_tax_short r
    = income_tax_short (Out.annual_short_net_before_tax r) (In.income_tax_rate i);
  ran_annual_short_after_tax :
    Out.annual_short_after_tax r
    = annual_short_after_tax (Out.annual_short_net_before_tax r) (Out.income_tax_short r);
  ran_yield_short_gross :
    yield_short_gross (Out.annual_short_gross r) (In.price i) = Ok (Out.yield_short_gross r);
  ran_yield_short_net :
    yield_short_net (Out.annual_short_after_tax r) (In.price i) = Ok (Out.yield_short_net r);
  ran_roi_short :
    roi_short (Out.annual_short_after_tax r) (In.initial_investment i) = Ok (Out.roi_short r);
  ran_cash_flow_short :
    Out.cash_flow_short r = cash_flow_short (Out.annual_short_after_tax r);
  ran_best_cash_flow :
    Out.best_cash_flow r = best_cash_flow (Out.cash_flow_long r) (Out.cash_flow_short r);
  ran_breakeven_years :
    breakeven_years (In.initial_investment i) (Out.best_cash_flow r)
    = Ok (Out.breakeven_years r);
  ran_annual_principal_payment :
    Out.annual_principal_payment r
    = annual_principal_payment (In.mortgage_amount i) (In.interest_rate i)
        (Out.monthly_mortgage r) (annual_mortgage_payments (Out.monthly_mortgage r));
  ran_total_roi_long :
    total_roi_long
      (total_return_long (Out.annual_long_after_tax r) (Out.annual_principal_payment r))
      (In.initial_investment i)
    = Ok (Out.total_roi_long r);
  ran_total_roi_short :
    total_roi_short
      (total_return_short (Out.annual_short_after_tax r) (Out.annual_principal_payment r))
      (In.initial_investment i)
    = Ok (Out.total_roi_short r);
  ran_recommendation :
    Out.recommendation r
    = recommendation (Out.yield_short_net r) (Out.yield_long_net r)
        (yield_difference (Out.yield_short_net r) (Out.yield_long_net r))
        (income_difference (Out.annual_short_after_tax r) (Out.annual_long_after_tax r))
        (Out.cash_flow_long r) (Out.cash_flow_short r);
  ran_best_strategy :
    Out.best_strategy r = best_strategy (Out.yield_short_net r) (Out.yield_long_net r);
  ran_best_roi :
    Out.best_roi r = best_roi (Out.roi_long r) (Out.roi_short r);
  ran_ltv_ratio :
    ltv_ratio (In.mortgage_amount i) (In.price i) = Ok (Out.ltv_ratio r);
  ran_grade : Out.grade r = grade (Out.best_roi r);
  ran_grade_color : Out.grade_color r = grade_color (Out.best_roi r)
}.

(** ** Market overview

    The second half of the page reads a static table of four cities with
    fifteen neighbourhoods each.  The table is a [dict] of [dict]s of
    column lists; [pd.DataFrame] turns the columns of the selected city
    into rows.  The yields and prices are only compared with each other
    and with literals here; the means, the distance of a click and the
    sorted city ranking are computed by pandas and numpy in floating
    point and are left out. *)

Module Market.

Inductive exn : Type := KeyError | ValueError | IndexError.

Inductive outcome (A : Type) : Type :=
| Done (a : A)
| Raised (e : exn).
Arguments Done {A} a.
Arguments Raised {A} e.

Definition bind {A B : Type} (c : outcome A) (k : A -> outcome B) : outcome B :=
  match c with
  | Done a => k a
  | Raised e => Raised e
  end.

(** A [dict] with string keys, in insertion order: [d[k]],
    [d.get(k, default)] and [list(d.keys())]. *)
Fixpoint getitem {A : Type} (d : list (String.string * A)) (k : String.string) : outcome A :=
  match d with
  | [] => Raised KeyError
  | (k', v) :: d' => if String.eqb k' k then Done v else getitem d' k
  end.

Definition get {A : Type} (d : list (String.string * A)) (k : String.string) (default : A) : A :=
  match getitem d k with
  | Done v => v
  | Raised _ => default
  end.

Definition keys {A : Type} (d : list (String.string * A)) : list String.string := map fst d.

(** The value under ["neighborhoods"]: five columns. *)
Record Columns : Type := {
  neighborhood : list String.string;
  lat : list Q;
  lon : list Q;
  yield : list Q;
  avg_price : list Q
}.

Record City : Type := {
  center : Q * Q;
  zoom : Z;
  neighborhoods : Columns
}.

Definition lisbon : City :=
  {| center := (38.7169, (-9.139));
     zoom := 11;
     neighborhoods :=
       {| neighborhood := [
       "Alfama"; "Graça"; "Baixa"; "Chiado"; "Parque das Nações";
       "Cascais"; "Sintra"; "Belém"; "Santos"; "Príncipe Real";
       "Campo de Ourique"; "Estrela"; "Lapa"; "Avenidas Novas"; "Benfica" ]%string;
          lat := [
       38.7112; 38.7203; 38.7101; 38.7084; 38.7687;
       38.6966; 38.7995; 38.6979; 38.7058; 38.7155;
       38.7217; 38.7094; 38.7064; 38.7436; 38.7499 ];
          lon := [
       (-9.1304); (-9.1324); (-9.1393); (-9.1414); (-9.0934);
       (-9.4226); (-9.3773); (-9.2028); (-9.1528); (-9.1463);
       (-9.1663); (-9.1604); (-9.1683); (-9.1476); (-9.2170) ];
          yield := [
       5.2; 6.1; 4.8; 5.6; 7.3;
       4.2; 3.8; 5.9; 6.4; 5.1;
       5.7; 4.9; 4.5; 6.8; 7.1 ];
          avg_price := [
       4500; 3800; 6200; 5800; 3200;
       7500; 2900; 4800; 5200; 6800;
       4200; 5500; 7200; 3600; 2800 ] |} |}.

Definition madrid : City :=
  {| center := (40.4168, (-3.7038));
     zoom := 11;
     neighborhoods :=
       {| neighborhood := [
       "Malasaña"; "Chueca"; "La Latina"; "Sol"; "Retiro";
       "Salamanca"; "Chamberí"; "Lavapiés"; "Moncloa"; "Argüelles";
       "Conde Duque"; "Justicia"; "Cortes"; "Universidad"; "Embajadores" ]%string;
          lat := [
       40.4267; 40.4235; 40.4139; 40.4165; 40.4130;
       40.4318; 40.4378; 40.4088; 40.4351; 40.4274;
       40.4289; 40.4210; 40.4145; 40.4198; 40.4067 ];
          lon := [
       (-3.7012); (-3.6958); (-3.7081); (-3.7026); (-3.6844);
       (-3.6823); (-3.7033); (-3.7004); (-3.7180); (-3.7181);
       (-3.7113); (-3.6976); (-3.7003); (-3.7081); (-3.7035) ];
          yield := [
       6.8; 7.2; 6.1; 5.4; 5.9;
       4.8; 6.3; 7.5; 5.7; 6.0;
       6.4; 6.9; 5.8; 6.2; 7.3 ];
          avg_price := [
       3800; 4200; 3200; 5500; 4800;
       6800; 4500; 2900; 4000; 3900;
       4100; 4300; 4600; 3700; 2800 ] |} |}.

Definition paris : City :=
  {| center := (48.8566, 2.3522);
     zoom := 11;
     neighborhoods :=
       {| neighborhood := [
       "Le Marais"; "Saint-Germain"; "Montmartre"; "Bastille"; "République";
       "Belleville"; "Oberkampf"; "Canal Saint-Martin"; "Pigalle"; "Châtelet";
       "Latin Quarter"; "Trocadéro"; "Opéra"; "Louvre"; "Nation" ]%string;
          lat := [
       48.8566; 48.8540; 48.8867; 48.8532; 48.8676;
       48.8720; 48.8665; 48.8708; 48.8823; 48.8584;
       48.8503; 48.8635; 48.8708; 48.8606; 48.8473 ];
          lon := [
       2.3522; 2.3347; 2.3431; 2.3695; 2.3637;
       2.3808; 2.3712; 2.3658; 2.3370; 2.3470;
       2.3447; 2.2851; 2.3322; 2.3376; 2.3964 ];
          yield := [
       4.2; 3.8; 5.1; 4.9; 5.3;
       6.2; 5.8; 5.5; 4.7; 3.9;
       4.1; 3.2; 3.6; 3.4; 5.7 ];
          avg_price := [
       9800; 11200; 7800; 8200; 7500;
       6800; 7200; 7600; 8500; 10500;
       9200; 12800; 10900; 11800; 6900 ] |} |}.

Definition berlin : City :=
  {| center := (52.5200, 13.4050);
     zoom := 11;
     neighborhoods :=
       {| neighborhood := [
       "Mitte"; "Prenzlauer Berg"; "Kreuzberg"; "Friedrichshain"; "Charlottenburg";
       "Neukölln"; "Schöneberg"; "Wedding"; "Moabit"; "Tempelhof";
       "Wilmersdorf"; "Steglitz"; "Zehlendorf"; "Spandau"; "Reinickendorf" ]%string;
          lat := [
       52.5200; 52.5403; 52.4987; 52.5095; 52.5045;
       52.4814; 52.4862; 52.5504; 52.5194; 52.4730;
       52.4864; 52.4569; 52.4333; 52.5370; 52.5755 ];
          lon := [
       13.4050; 13.4104; 13.4034; 13.4531; 13.3096;
       13.4370; 13.3500; 13.3669; 13.3441; 13.3846;
       13.3089; 13.3171; 13.2619; 13.1956; 13.3249 ];
          yield := [
       5.8; 6.4; 7.1; 6.9; 5.2;
       7.8; 6.2; 7.5; 6.7; 6.0;
       5.6; 5.9; 4.8; 6.3; 6.8 ];
          avg_price := [
       4800; 4200; 3600; 3800; 5200;
       3200; 4000; 2900; 3700; 3900;
       4600; 4100; 5800; 3300; 3400 ] |} |}.

Definition city_data : list (String.string * City) :=
  [ ("Lisbon"%string, lisbon);
    ("Madrid"%string, madrid);
    ("Paris"%string, paris);
    ("Berlin"%string, berlin) ].

Definition city_regulations : list (String.string * String.string) :=
  [ ("Lisbon", "AL license required for short-term rentals");
    ("Madrid", "Registration required, max 90 days/year in some areas");
    ("Paris", "Primary residence rule, 120 days/year limit");
    ("Berlin", "Zweckentfremdungsverbot - strict regulations apply") ]%string.

Definition local_regulation (selected_city : String.string) : String.string :=
  get city_regulations selected_city "Check local laws and regulations"%string.

End Market.

(** A row of the data frame. *)
Module Row.
Record t : Type := mk {
  neighborhood : String.string;
  lat : Q;
  lon : Q;
  yield : Q;
  avg_price : Q
}.
End Row.

Module Pd.

(** [pd.DataFrame(columns)]: the rows, or [ValueError] when the columns
    differ in length. *)
Fixpoint rows (n : list String.string) (la lo y p : list Q) : list Row.t :=
  match n, la, lo, y, p with
  | n0 :: n', la0 :: la', lo0 :: lo', y0 :: y', p0 :: p' =>
      Row.mk n0 la0 lo0 y0 p0 :: rows n' la' lo' y' p'
  | _, _, _, _, _ => []
  end.

Definition DataFrame (c : Market.Columns) : Market.outcome (list Row.t) :=
  let n := length (Market.neighborhood c) in
  if ((length (Market.lat c) =? n) && (length (Market.lon c) =? n)
      && (length (Market.yield c) =? n) && (length (Market.avg_price c) =? n))%nat
  then Market.Done (rows (Market.neighborhood c) (Market.lat c) (Market.lon c)
                         (Market.yield c) (Market.avg_price c))
  else Market.Raised Market.ValueError.

(** [Series.max()] and [Series.min()]; [None] is the [NaN] of an empty
    series. *)
Definition series_max (s : list Q) : option Q :=
  match s with
  | [] => None
  | x :: s' => Some (fold_left (fun m v => if v >? m then v else m) s' x)
  end.

Definition series_min (s : list Q) : option Q :=
  match s with
  | [] => None
  | x :: s' => Some (fold_left (fun m v => if m >? v then v else m) s' x)
  end.

(** [series == value]: nothing equals [NaN]. *)
Definition eq_mask (value : option Q) (x : Q) : bool :=
  match value with
  | Some v => Qeq_bool x v
  | None => false
  end.

(** [.values[0]] *)
Definition values_0 {A : Type} (values : list A) : Market.outcome A :=
  match values with
  | [] => Market.Raised Market.IndexError
  | v :: _ => Market.Done v
  end.

End Pd.

(** Marker colour and fill colour of a neighbourhood. *)
Definition marker_colors (yield : Q) : String.string * String.string :=
  if yield >=? 6.5 then ("green", "lightgreen")%string
  else if yield >=? 5.5 then ("orange", "yellow")%string
  else ("red", "lightcoral")%string.

Definition max_yield (neighborhood_data : list Row.t) : option Q :=
  Pd.series_max (map Row.yield neighborhood_data).

Definition best_neighborhood (neighborhood_data : list Row.t) : Market.outcome String.string :=
  Pd.values_0
    (map Row.neighborhood
       (filter (fun row => Pd.eq_mask (max_yield neighborhood_data) (Row.yield row))
               neighborhood_data)).

Definition min_price (neighborhood_data : list Row.t) : option Q :=
  Pd.series_min (map Row.avg_price neighborhood_data).

Definition cheapest_neighborhood (neighborhood_data : list Row.t) : Market.outcome String.string :=
  Pd.values_0
    (map Row.neighborhood
       (filter (fun row => Pd.eq_mask (min_price neighborhood_data) (Row.avg_price row))
               neighborhood_data)).

(** The look-ups of the market section for the selected city, in the
    order of the source: the city's entry, its data frame, the best and
    the cheapest neighbourhood, the local regulation. *)
Definition market_overview (selected_city : String.string)
  : Market.outcome (list Row.t * String.string * String.string * String.string) :=
  Market.bind (Market.getitem Market.city_data selected_city) (fun current_city =>
  Market.bind (Pd.DataFrame (Market.neighborhoods current_city)) (fun neighborhood_data =>
  Market.bind (best_neighborhood neighborhood_data) (fun best_neighborhood' =>
  Market.bind (cheapest_neighborhood neighborhood_data) (fun cheapest_neighborhood' =>
  Market.Done (neighborhood_data, best_neighborhood', cheapest_neighborhood',
        Market.local_regulation selected_city))))).

(** ** The ranges of the sidebar widgets

    What [st.sidebar.number_input], [slider] and [selectbox] let through:
    the bounds of each widget, without its step. *)

Record sidebar (i : In.t) : Prop := {
  sidebar_price : 50000 <= In.price i <= 2000000;
  sidebar_rent_long : 300 <= In.rent_long i <= 5000;
  sidebar_rent_short : 20 <= In.rent_short i <= 500;
  sidebar_occupancy_rate : 10 <= In.occupancy_rate i <= 100;
  sidebar_expenses : 100 <= In.expenses i <= 2000;
  sidebar_initial_investment : 10000 <= In.initial_investment i <= 500000;
  sidebar_mortgage_amount : 0 <= In.mortgage_amount i <= 1500000;
  sidebar_interest_rate : 1 <= In.interest_rate i <= 8;
  sidebar_mortgage_years : In (In.mortgage_years i) [15; 20; 25; 30]%Z;
  sidebar_income_tax_rate : 0 <= In.income_tax_rate i <= 50;
  sidebar_property_tax_rate : 0 <= In.property_tax_rate i <= 3;
  sidebar_annual_maintenance_rate : 0.5 <= In.annual_maintenance_rate i <= 3;
  sidebar_insurance_cost : 200 <= In.insurance_cost i <= 5000
}.

(** ** The script in binary64

    The same statements over IEEE 754 binary64 values, the arithmetic
    Python's [float] has, for evaluating the script bit for bit on a
    concrete input.  A Python [int] operand is the float of the same
    value (exact for the magnitudes used here).  [pow] is taken to be
    correctly rounded, as the C library's is on the inputs evaluated
    below.  [OverflowError] is what [**] raises on an overflowing
    result. *)

Module F64.

Import PrimFloat SpecFloat FloatOps.
Local Open Scope float_scope.

Inductive exn : Type := ZeroDivisionError | OverflowError.

Inductive result (A : Type) : Type :=
| Ok (a : A)
| Raise (e : exn).
Arguments Ok {A} a.
Arguments Raise {A} e.

Definition bind {A B : Type} (c : result A) (k : A -> result B) : result B :=
  match c with
  | Ok a => k a
  | Raise e => Raise e
  end.

Definition gt (a b : float) : bool := b <? a.

Definition max (a b : float) : float := if gt b a then b else a.
Definition min (a b : float) : float := if gt a b then b else a.

Definition truediv (a b : float) : result float :=
  if b =? 0 then Raise ZeroDivisionError else Ok (a / b).

(** The float nearest to [m * 2^e / d] (ties to even): the quotient is
    cut to more than 64 bits with a sticky bit, then rounded once. *)
Definition nearest (m e : Z) (d : positive) : float :=
  let k := (Z.log2 (Zpos d) + 64)%Z in
  let q := (m * 2 ^ k / Zpos d)%Z in
  let sticky := if (m * 2 ^ k mod Zpos d =? 0)%Z then 0%Z else 1%Z in
  SF2Prim (binary_normalize prec emax (2 * q + sticky) (e - k - 1) false).

(** [x ** n] for an [int] exponent.  The script's base is
    [1 + monthly_rate] with [monthly_rate > 0], a float from 1 to
    infinity; no other base is given a meaning here. *)
Definition pow (x : float) (n : Z) : result float :=
  match Prim2SF x with
  | S754_finite false m e =>
      let v := if (0 <=? n)%Z
               then nearest (Zpos m ^ n) (e * n) 1
               else nearest 1 (e * n) (m ^ Z.to_pos (- n)) in
      if v =? infinity then Raise OverflowError else Ok v
  | S754_infinity false =>
      Ok (if (0 <? n)%Z then infinity else if (n =? 0)%Z then 1 else 0)
  | _ => Ok nan
  end.

(** [float(n)] of an [int]. *)
Definition of_int (n : Z) : result float :=
  let v := nearest n 0 1 in
  if abs v =? infinity then Raise OverflowError else Ok v.

Definition monthly_rate (interest_rate : float) : float := (interest_rate / 100) / 12.

Definition num_payments (mortgage_years : Z) : Z := (mortgage_years * 12)%Z.

Definition monthly_mortgage (mortgage_amount interest_rate : float) (mortgage_years : Z)
  : result float :=
  if gt mortgage_amount 0 then
    let monthly_rate := monthly_rate interest_rate in
    let num_payments := num_payments mortgage_years in
    if gt monthly_rate 0 then
      bind (pow (1 + monthly_rate) num_payments) (fun p =>
      bind (pow (1 + monthly_rate) num_payments) (fun p' =>
      truediv (mortgage_amount * (monthly_rate * p)) (p' - 1)))
    else
      bind (of_int num_payments) (fun n => truediv mortgage_amount n)
  else Ok 0.

Definition annual_property_tax (property_tax_rate price : float) : float :=
  (property_tax_rate / 100) * price.

Definition annual_maintenance (annual_maintenance_rate price : float) : float :=
  (annual_maintenance_rate / 100) * price.

Definition annual_mortgage_payments (monthly_mortgage : float) : float :=
  monthly_mortgage * 12.

Definition total_annual_costs
  (expenses annual_property_tax annual_maintenance annual_mortgage_payments
   annual_insurance : float) : float :=
  expenses * 12 + annual_property_tax + annual_maintenance
  + annual_mortgage_payments + annual_insurance.

Definition annual_long_gross (rent_long : float) : float := rent_long * 12.

Definition annual_long_net_before_tax (annual_long_gross total_annual_costs : float)
  : float :=
  annual_long_gross - total_annual_costs.

Definition income_tax_long (annual_long_net_before_tax income_tax_rate : float) : float :=
  max 0 (annual_long_net_before_tax * (income_tax_rate / 100)).

Definition annual_long_after_tax (annual_long_net_before_tax income_tax_long : float)
  : float :=
  annual_long_net_before_tax - income_tax_long.

Definition yield_long_net (annual_long_after_tax price : float) : result float :=
  if gt price 0
  then bind (truediv annual_long_after_tax price) (fun q => Ok (q * 100))
  else Ok 0.

Definition monthly_nights_booked (occupancy_rate : float) : float :=
  (occupancy_rate / 100) * 30.

Definition annual_short_gross (rent_short monthly_nights_booked : float) : float :=
  rent_short * monthly_nights_booked * 12.

Definition annual_short_net_before_tax (annual_short_gross total_annual_costs : float)
  : float :=
  annual_short_gross - total_annual_costs.

Definition income_tax_short (annual_short_net_before_tax income_tax_rate : float) : float :=
  max 0 (annual_short_net_before_tax * (income_tax_rate / 100)).

Definition annual_short_after_tax (annual_short_net_before_tax income_tax_short : float)
  : float :=
  annual_short_net_before_tax - income_tax_short.

Definition yield_short_net (annual_short_after_tax price : float) : result float :=
  if gt price 0
  then bind (truediv annual_short_after_tax price) (fun q => Ok (q * 100))
  else Ok 0.

Definition loop_body (monthly_rate monthly_mortgage : float) (st : float * float)
  (month : nat) : float * float :=
  let '(annual_principal_payment, remaining_balance) := st in
  let interest_payment := remaining_balance * monthly_rate in
  let principal_payment := monthly_mortgage - interest_payment in
  (annual_principal_payment + principal_payment,
   remaining_balance - principal_payment).

Definition annual_principal_payment
  (mortgage_amount interest_rate monthly_mortgage annual_mortgage_payments : float)
  : float :=
  if (gt mortgage_amount 0 && gt (monthly_rate interest_rate) 0)%bool then
    fst (fold_left (loop_body (monthly_rate interest_rate) monthly_mortgage)
                   (seq 0 12) (0, mortgage_amount))
  else min annual_mortgage_payments mortgage_amount.

Inductive Banner : Type := ShortTermMoreProfitable | LongTermMoreProfitable | Similar.

Definition recommendation (yield_short_net yield_long_net : float) : Banner :=
  if gt yield_short_net yield_long_net then ShortTermMoreProfitable
  else if gt yield_long_net yield_short_net then LongTermMoreProfitable
  else Similar.

Module In.
Record t : Type := mk {
  price : float;
  rent_long : float;
  rent_short : float;
  occupancy_rate : float;
  expenses : float;
  mortgage_amount : float;
  interest_rate : float;
  mortgage_years : Z;
  income_tax_rate : float;
  property_tax_rate : float;
  annual_maintenance_rate : float;
  insurance_cost : float
}.
End In.

Module Out.
Record t : Type := mk {
  monthly_mortgage : float;
  total_annual_costs : float;
  annual_long_gross : float;
  cash_flow_long : float;
  yield_long_net : float;
  annual_short_gross : float;
  cash_flow_short : float;
  yield_short_net : float;
  annual_principal_payment : float;
  recommendation : Banner
}.
End Out.

(** The statements from the mortgage payment to the left column's
    branch, in the order of the source; the return, payback, summary and
    grade statements are not part of this replica. *)
Definition run (i : In.t) : result Out.t :=
  bind (monthly_mortgage (In.mortgage_amount i) (In.interest_rate i)
          (In.mortgage_years i)) (fun monthly_mortgage' =>
  let annual_mortgage_payments' := annual_mortgage_payments monthly_mortgage' in
  let total_annual_costs' :=
    total_annual_costs (In.expenses i)
      (annual_property_tax (In.property_tax_rate i) (In.price i))
      (annual_maintenance (In.annual_maintenance_rate i) (In.price i))
      annual_mortgage_payments' (In.insurance_cost i) in
  let annual_long_gross' := annual_long_gross (In.rent_long i) in
  let annual_long_net_before_tax' :=
    annual_long_net_before_tax annual_long_gross' total_annual_costs' in
  let annual_long_after_tax' :=
    annual_long_after_tax annual_long_net_before_tax'
      (income_tax_long annual_long_net_before_tax' (In.income_tax_rate i)) in
  bind (yield_long_net annual_long_after_tax' (In.price i)) (fun yield_long_net' =>
  let annual_short_gross' :=
    annual_short_gross (In.rent_short i) (monthly_nights_booked (In.occupancy_rate i)) in
  let annual_short_net_before_tax' :=
    annual_short_net_before_tax annual_short_gross' total_annual_costs' in
  let annual_short_after_tax' :=
    annual_short_after_tax annual_short_net_before_tax'
      (income_tax_short annual_short_net_before_tax' (In.income_tax_rate i)) in
  bind (yield_short_net annual_short_after_tax' (In.price i)) (fun yield_short_net' =>
  Ok (Out.mk monthly_mortgage' total_annual_costs'
        annual_long_gross' annual_long_after_tax' yield_long_net'
        annual_short_gross' annual_short_after_tax' yield_short_net'
        (annual_principal_payment (In.mortgage_amount i) (In.interest_rate i)
           monthly_mortgage' annual_mortgage_payments')
        (recommendation yield_short_net' yield_long_net'))))).

(** Price 300000, monthly rent 780, nightly rate 200 at 13 % occupancy,
    every other input the widget default. *)
Definition near_tie_inputs : In.t :=
  In.mk 300000 780 200 13 400 240000 3.5 30 28 0.8 1.5 800.

End F64.

(** ** Comparisons, [max], [min] and division *)

Lemma gt_true_iff (a b : Q) : (a >? b) = true <-> b < a.
Proof.
  unfold Py.gt. rewrite negb_true_iff, <- not_true_iff_false, Qle_bool_iff.
  split; [apply Qnot_le_lt | apply Qlt_not_le].
Qed.

Lemma gt_false_iff (a b : Q) : (a >? b) = false <-> a <= b.
Proof.
  unfold Py.gt. rewrite negb_false_iff. apply Qle_bool_iff.
Qed.

Lemma ge_true_iff (a b : Q) : (a >=? b) = true <-> b <= a.
Proof. apply Qle_bool_iff. Qed.

Lemma ge_false_iff (a b : Q) : (a >=? b) = false <-> a < b.
Proof.
  unfold Py.ge. rewrite <- not_true_iff_false, Qle_bool_iff.
  split; [apply Qnot_le_lt | apply Qlt_not_le].
Qed.

(** Division by the literals 100 and 12, as a product, for [lra]. *)
Ltac qlit :=
  unfold Qdiv in *;
  change (/ 100) with (1 # 100) in *;
  change (/ 12) with (1 # 12) in *.

(** Case analysis on a Python comparison, leaving the order fact as a
    hypothesis for [lra]. *)
Ltac case_gt a b :=
  let E := fresh "E" in
  destruct (Py.gt a b) eqn:E;
  [apply gt_true_iff in E | apply gt_false_iff in E].

Ltac case_ge a b :=
  let E := fresh "E" in
  destruct (Py.ge a b) eqn:E;
  [apply ge_true_iff in E | apply ge_false_iff in E].

Lemma max_spec (a b : Q) :
  (a < b /\ Py.max a b = b) \/ (b <= a /\ Py.max a b = a).
Proof. unfold Py.max. case_gt b a; auto. Qed.

Lemma min_spec (a b : Q) :
  (b < a /\ Py.min a b = b) \/ (a <= b /\ Py.min a b = a).
Proof. unfold Py.min. case_gt a b; auto. Qed.

Lemma truediv_ok (a b : Q) : ~ b == 0 -> truediv a b = Ok (a / b).
Proof.
  intros H. unfold truediv.
  destruct (Qeq_bool b 0) eqn:E; [|reflexivity].
  apply Qeq_bool_eq in E. contradiction.
Qed.

Lemma truediv_zero (a b : Q) : b == 0 -> truediv a b = Raise ZeroDivisionError.
Proof. intros H. unfold truediv. now rewrite (Qeq_eq_bool _ _ H). Qed.

(** The shape shared by the yield and return statements:
    [(a / b) * 100 if b > 0 else 0] never raises. *)
Lemma guarded_pct_ok (a b : Q) :
  (if b >? 0 then q <- truediv a b ;; Ok (q * 100) else Ok 0)
  = Ok (if b >? 0 then a / b * 100 else 0).
Proof.
  case_gt b 0; [|reflexivity].
  rewrite truediv_ok; [reflexivity|]. intros H. rewrite H in E. lra.
Qed.

(** ** The guarded statements never raise *)

Lemma yield_long_gross_ok (g p : Q) :
  yield_long_gross g p = Ok (if p >? 0 then g / p * 100 else 0).
Proof. apply guarded_pct_ok. Qed.

Lemma yield_long_net_ok (n p : Q) :
  yield_long_net n p = Ok (if p >? 0 then n / p * 100 else 0).
Proof. apply guarded_pct_ok. Qed.

Lemma roi_long_ok (n v : Q) :
  roi_long n v = Ok (if v >? 0 then n / v * 100 else 0).
Proof. apply guarded_pct_ok. Qed.

Lemma yield_short_gross_ok (g p : Q) :
  yield_short_gross g p = Ok (if p >? 0 then g / p * 100 else 0).
Proof. apply guarded_pct_ok. Qed.

Lemma yield_short_net_ok (n p : Q) :
  yield_short_net n p = Ok (if p >? 0 then n / p * 100 else 0).
Proof. apply guarded_pct_ok. Qed.

Lemma roi_short_ok (n v : Q) :
  roi_short n v = Ok (if v >? 0 then n / v * 100 else 0).
Proof. apply guarded_pct_ok. Qed.

Lemma total_roi_long_ok (t v : Q) :
  total_roi_long t v = Ok (if v >? 0 then t / v * 100 else 0).
Proof. apply guarded_pct_ok. Qed.

Lemma total_roi_short_ok (t v : Q) :
  total_roi_short t v = Ok (if v >? 0 then t / v * 100 else 0).
Proof. apply guarded_pct_ok. Qed.

Lemma breakeven_years_ok (v b : Q) :
  breakeven_years v b = Ok (if b >? 0 then Finite (v / b) else Inf).
Proof.
  unfold breakeven_years. case_gt b 0; [|reflexivity].
  rewrite truediv_ok; [reflexivity|]. intros H. rewrite H in E. lra.
Qed.


Lemma ltv_ratio_raises (m p : Q) :
  0 < m -> p == 0 -> ltv_ratio m p = Raise ZeroDivisionError.
Proof.
  intros Hm Hp. unfold ltv_ratio.
  apply gt_true_iff in Hm. rewrite Hm. now rewrite truediv_zero.
Qed.

(** Symbolic execution of [run]: unfold the script, then discharge every
    guarded statement with its [_ok] lemma. *)
Ltac guarded_statements :=
  repeat (first
    [ rewrite yield_long_gross_ok | rewrite yield_long_net_ok | rewrite roi_long_ok
    | rewrite yield_short_gross_ok | rewrite yield_short_net_ok | rewrite roi_short_ok
    | rewrite total_roi_long_ok | rewrite total_roi_short_ok
    | rewrite breakeven_years_ok ];
    cbn [Py.bind]).

Ltac run_script := unfold run; cbv zeta; guarded_statements.

Lemma run_sound (i : In.t) (r : Out.t) : run i = Ok r -> Ran i r.
Proof.
  unfold run. cbv zeta.
  destruct (monthly_mortgage _ _ _) as [mm|e] eqn:Hmm; cbn [Py.bind]; [|discriminate].
  run_script.
  destruct (ltv_ratio _ _) as [ltv|e] eqn:Hltv; cbn [Py.bind]; [|discriminate].
  intros H. injection H as <-.
  constructor; cbn; try reflexivity; try assumption;
    first [ apply yield_long_gross_ok | apply roi_long_ok | apply breakeven_years_ok ].
Qed.

(** The two statements that can raise are the mortgage payment and the
    loan-to-value ratio; when neither does, the run completes. *)
Lemma run_total (i : In.t) (mm : Q) (ltv : option Q) :
  monthly_mortgage (In.mortgage_amount i) (In.interest_rate i) (In.mortgage_years i)
  = Ok mm ->
  ltv_ratio (In.mortgage_amount i) (In.price i) = Ok ltv ->
  exists r, run i = Ok r.
Proof.
  intros Hmm Hltv. unfold run. cbv zeta.
  rewrite Hmm. cbn [Py.bind]. run_script. rewrite Hltv. cbn [Py.bind].
  eexists. reflexivity.
Qed.

Lemma run_raises_mortgage (i : In.t) (e : exn) :
  monthly_mortgage (In.mortgage_amount i) (In.interest_rate i) (In.mortgage_years i)
  = Raise e ->
  run i = Raise e.
Proof. intros H. unfold run. cbv zeta. now rewrite H. Qed.


(** ** The worked example: the default widget values *)

Lemma Qabs_le_iff (x y : Q) : Qabs x <= y <-> - y <= x /\ x <= y.
Proof. apply Qabs_Qle_condition. Qed.

Lemma monthly_mortgage_default :
  exists mm, monthly_mortgage 240000 3.5 30 = Ok mm /\ Qabs (mm - 1077.71) <= 0.01.
Proof.
  eexists. split.
  - vm_compute. reflexivity.
  - apply Qle_bool_imp_le. vm_compute. reflexivity.
Qed.

(** C1. On price 300000, long-term rent 1200, nightly rate 80, occupancy
    65, expenses 400, initial investment 60000, mortgage 240000 at 3.5 %
    over 30 years, income tax 28 %, property tax 0.8 %, maintenance 1.5 %
    and insurance 800, the run completes with a monthly payment within
    0.01 of 1077.71, long-term gross income 14400, short-term gross income
    18720, total annual costs within 0.5 of 25432.5, long-term net before
    tax within 0.5 of -11032.5, long-term tax 0 and long-term net after
    tax equal to the net before tax. *)
Theorem C1_default_example :
  exists r, run default_inputs = Ok r /\
    Qabs (Out.monthly_mortgage r - 1077.71) <= 0.01 /\
    Out.annual_long_gross r == 14400 /\
    Out.annual_short_gross r == 18720 /\
    Qabs (Out.total_annual_costs r - 25432.5) <= 0.5 /\
    Qabs (Out.annual_long_net_before_tax r - (-11032.5)) <= 0.5 /\
    Out.income_tax_long r == 0 /\
    Out.annual_long_after_tax r == Out.annual_long_net_before_tax r.
Proof.
  destruct monthly_mortgage_default as (mm & Hmm & Hb).
  destruct (run_total default_inputs mm (Some (240000 / 300000 * 100)) Hmm)
    as [r Hr]; [reflexivity|].
  exists r. split; [exact Hr|].
  destruct (run_sound _ _ Hr) as
    [Hm Hc Hlg Hln Hlt Hla _ _ _ _ Hsg _ _ _ _ _ _ _ _ _ _ _ _ _ _ _ _ _ _].
  cbn [default_inputs In.mortgage_amount In.interest_rate In.mortgage_years In.price
       In.expenses In.property_tax_rate In.annual_maintenance_rate In.insurance_cost
       In.rent_long In.rent_short In.occupancy_rate In.income_tax_rate] in *.
  rewrite Hmm in Hm. injection Hm as Hm. subst mm.
  remember (Out.monthly_mortgage r) as m eqn:Em. clear Em.
  apply Qabs_le_iff in Hb. destruct Hb as [Hlo Hhi].
  assert (Hc' : Out.total_annual_costs r == 12500 + 12 * m).
  { rewrite Hc. unfold total_annual_costs, annual_property_tax, annual_maintenance,
      annual_mortgage_payments, annual_insurance. field. }
  assert (Hl' : Out.annual_long_gross r == 14400).
  { rewrite Hlg. reflexivity. }
  assert (Hn' : Out.annual_long_net_before_tax r == 1900 - 12 * m).
  { rewrite Hln. unfold annual_long_net_before_tax. rewrite Hl', Hc'. ring. }
  assert (Ht' : Out.income_tax_long r = 0).
  { rewrite Hlt. unfold income_tax_long, Py.max.
    case_gt (Out.annual_long_net_before_tax r * (28 / 100)) 0; [|reflexivity].
    exfalso. rewrite Hn' in E. qlit. lra. }
  repeat split.
  - apply Qabs_le_iff. lra.
  - exact Hl'.
  - rewrite Hsg. reflexivity.
  - apply Qabs_le_iff. rewrite Hc'. lra.
  - apply Qabs_le_iff. rewrite Hn'. lra.
  - rewrite Ht'. reflexivity.
  - rewrite Hla, Ht'. unfold annual_long_after_tax. ring.
Qed.

(** ** Ties between the two strategies *)

#[global] Instance gt_Proper : Proper (Qeq ==> Qeq ==> eq) Py.gt.
Proof. intros a a' Ha b b' Hb. unfold Py.gt. now rewrite Ha, Hb. Qed.

#[global] Instance max_Proper : Proper (Qeq ==> Qeq ==> Qeq) Py.max.
Proof.
  intros a a' Ha b b' Hb. unfold Py.max. rewrite Ha, Hb.
  destruct (b' >? a'); assumption.
Qed.

Lemma gt_irrefl (a b : Q) : a == b -> (a >? b) = false.
Proof. intros H. apply gt_false_iff. rewrite H. apply Qle_refl. Qed.

(** The left column on a tie: neither strategy is announced. *)
Lemma recommendation_tie (ys yl yd id cfl cfs : Q) :
  ys == yl -> recommendation ys yl yd id cfl cfs = SimilarProfitability cfl cfs.
Proof.
  intros H. unfold recommendation.
  rewrite (gt_irrefl ys yl H), (gt_irrefl yl ys (Qeq_sym _ _ H)). reflexivity.
Qed.

(** The right column on a tie: the [else] of the conditional expression
    names the long-term strategy. *)
Lemma best_strategy_tie (ys yl : Q) : ys == yl -> best_strategy ys yl = Long_term.
Proof. intros H. unfold best_strategy. now rewrite (gt_irrefl ys yl H). Qed.

Lemma ran_yield_long_net_eq (i : In.t) (r : Out.t) :
  Ran i r ->
  Out.yield_long_net r
  = if In.price i >? 0 then Out.annual_long_after_tax r / In.price i * 100 else 0.
Proof.
  intros R. pose proof (ran_yield_long_net _ _ R) as H.
  rewrite yield_long_net_ok in H. now injection H.
Qed.

Lemma ran_yield_short_net_eq (i : In.t) (r : Out.t) :
  Ran i r ->
  Out.yield_short_net r
  = if In.price i >? 0 then Out.annual_short_after_tax r / In.price i * 100 else 0.
Proof.
  intros R. pose proof (ran_yield_short_net _ _ R) as H.
  rewrite yield_short_net_ok in H. now injection H.
Qed.

(** Equal gross incomes give equal after-tax figures and equal net
    yields: both strategies share the costs and the tax rate. *)
Lemma ran_equal_gross (i : In.t) (r : Out.t) :
  Ran i r ->
  Out.annual_short_gross r == Out.annual_long_gross r ->
  Out.annual_short_after_tax r == Out.annual_long_after_tax r
  /\ Out.yield_short_net r == Out.yield_long_net r.
Proof.
  intros R Hg.
  assert (Ha : Out.annual_short_after_tax r == Out.annual_long_after_tax r).
  { rewrite (ran_annual_short_after_tax _ _ R), (ran_annual_long_after_tax _ _ R).
    rewrite (ran_income_tax_short _ _ R), (ran_income_tax_long _ _ R).
    rewrite (ran_annual_short_net_before_tax _ _ R), (ran_annual_long_net_before_tax _ _ R).
    unfold annual_short_after_tax, annual_long_after_tax, income_tax_short,
      income_tax_long, annual_short_net_before_tax, annual_long_net_before_tax.
    now rewrite Hg. }
  split; [exact Ha|].
  rewrite (ran_yield_short_net_eq _ _ R), (ran_yield_long_net_eq _ _ R).
  destruct (In.price i >? 0); [now rewrite Ha | reflexivity].
Qed.

(** C2. On inputs whose two net yields are equal the left column reports
    similar profitability, but the summary's best strategy still names
    the long-term rental. *)
Theorem C2_tie_names_long_term :
  exists r, run tie_inputs = Ok r /\
    Out.yield_short_net r == Out.yield_long_net r /\
    Out.recommendation r
    = SimilarProfitability (Out.cash_flow_long r) (Out.cash_flow_short r) /\
    Out.best_strategy r = Long_term.
Proof.
  destruct monthly_mortgage_default as (mm & Hmm & _).
  destruct (run_total tie_inputs mm (Some (240000 / 300000 * 100)) Hmm)
    as [r Hr]; [reflexivity|].
  exists r. split; [exact Hr|].
  pose proof (run_sound _ _ Hr) as R.
  assert (Hg : Out.annual_short_gross r == Out.annual_long_gross r).
  { rewrite (ran_annual_short_gross _ _ R), (ran_annual_long_gross _ _ R). reflexivity. }
  destruct (ran_equal_gross _ _ R Hg) as [_ Hy].
  split; [exact Hy|]. split.
  - rewrite (ran_recommendation _ _ R). now apply recommendation_tie.
  - rewrite (ran_best_strategy _ _ R). now apply best_strategy_tie.
Qed.

(** ** Guards on the divisions *)




(** ** Payback period *)

Lemma max_Qmax (a b : Q) : Py.max a b == Qmax a b.
Proof.
  destruct (max_spec a b) as [[H ->]|[H ->]].
  - symmetry. apply Q.max_r. lra.
  - symmetry. apply Q.max_l. exact H.
Qed.

(** C4. The payback period is the initial investment divided by the
    greater of the two after-tax cash flows when that is positive, and
    [float('inf')] otherwise; the statement never raises, and the sentinel
    differs from every finite value, negative ones included. *)
Theorem C4_payback_period
  (initial_investment annual_long_after_tax annual_short_after_tax : Q) :
  let best := best_cash_flow (cash_flow_long annual_long_after_tax)
                             (cash_flow_short annual_short_after_tax) in
  best == Qmax annual_long_after_tax annual_short_after_tax
  /\ (exists y, breakeven_years initial_investment best = Ok y)
  /\ (0 < best ->
      breakeven_years initial_investment best = Ok (Finite (initial_investment / best)))
  /\ (best <= 0 -> breakeven_years initial_investment best = Ok Inf)
  /\ (forall q, Finite q <> Inf).
Proof.
  intros best. split; [apply max_Qmax|].
  rewrite breakeven_years_ok. split; [eexists; reflexivity|].
  split; [|split].
  - intros H. apply gt_true_iff in H. now rewrite H.
  - intros H. apply gt_false_iff in H. now rewrite H.
  - discriminate.
Qed.

Lemma C4_payback_period_witness :
  breakeven_years 60000 (best_cash_flow (cash_flow_long 3000) (cash_flow_short 2000))
  = Ok (Finite (60000 / 3000))
  /\ breakeven_years 60000 (best_cash_flow (cash_flow_long (-5)) (cash_flow_short 0))
     = Ok Inf.
Proof.
  split.
  - destruct (C4_payback_period 60000 3000 2000) as (_ & _ & H & _). apply H. reflexivity.
  - destruct (C4_payback_period 60000 (-5) 0) as (_ & _ & _ & H & _). apply H. discriminate.
Defined.

(** ** Investment grade *)

(** C5. The grade is read off the greater of the two cash-on-cash
    returns, each band closed at its lower bound: at least 15 is
    Excellent, [10, 15) Good, [5, 10) Moderate, below 5 Poor; exactly 5
    is Moderate. *)
Theorem C5_grade_bands (roi_long roi_short : Q) :
  let best := best_roi roi_long roi_short in
  best == Qmax roi_long roi_short
  /\ (15 <= best -> grade best = Excellent)
  /\ (10 <= best < 15 -> grade best = Good)
  /\ (5 <= best < 10 -> grade best = Moderate)
  /\ (best < 5 -> grade best = Poor)
  /\ grade 5 = Moderate.
Proof.
  intros best. split; [apply max_Qmax|].
  unfold grade.
  repeat split; try reflexivity; intros H;
    case_ge best 15; case_ge best 10; case_ge best 5;
    solve [reflexivity | exfalso; lra].
Qed.

Lemma C5_grade_bands_witness :
  grade (best_roi 16 2) = Excellent /\ grade (best_roi 3 12) = Good
  /\ grade (best_roi 7 (-1)) = Moderate /\ grade (best_roi 4 (-7)) = Poor.
Proof.
  split; [|split; [|split]].
  - destruct (C5_grade_bands 16 2) as (_ & H & _). apply H. discriminate.
  - destruct (C5_grade_bands 3 12) as (_ & _ & H & _). apply H.
    split; [discriminate | reflexivity].
  - destruct (C5_grade_bands 7 (-1)) as (_ & _ & _ & H & _). apply H.
    split; [discriminate | reflexivity].
  - destruct (C5_grade_bands 4 (-7)) as (_ & _ & _ & _ & H & _). apply H. reflexivity.
Defined.

(** ** Mortgage amortisation *)

Lemma monthly_rate_pos (interest_rate : Q) : 0 < interest_rate -> 0 < monthly_rate interest_rate.
Proof. intros H. unfold monthly_rate. qlit. lra. Qed.

Lemma monthly_rate_zero (interest_rate : Q) :
  interest_rate == 0 -> monthly_rate interest_rate == 0.
Proof. intros H. unfold monthly_rate. rewrite H. reflexivity. Qed.

Lemma Qpower_succ (q : Q) (j : nat) : q ^ Z.of_nat (S j) == q ^ Z.of_nat j * q.
Proof.
  rewrite Nat2Z.inj_succ, <- Z.add_1_r, Qpower_plus' by lia.
  now rewrite Qpower_1_r.
Qed.

Section Amortisation.

(** Principal [P], monthly rate [r], payment [mm] and number of
    payments [n], tied by the annuity equation the payment formula
    solves. *)
Variables (P r mm : Q) (n : Z).
Hypothesis Hpay : mm * ((1 + r) ^ n - 1) == P * (r * (1 + r) ^ n).

(** One month: what is added to the principal paid is taken off the
    balance, and the balance follows the closed form
    [B_j * (q^n - 1) = P * (q^n - q^j)]. *)
Lemma loop_body_invariant (acc B : Q) (j month : nat) :
  B * ((1 + r) ^ n - 1) == P * ((1 + r) ^ n - (1 + r) ^ Z.of_nat j) ->
  let st := loop_body r mm (acc, B) month in
  fst st + snd st == acc + B
  /\ snd st * ((1 + r) ^ n - 1) == P * ((1 + r) ^ n - (1 + r) ^ Z.of_nat (S j)).
Proof.
  intros HB. cbn [loop_body fst snd]. split; [ring|].
  rewrite Qpower_succ.
  setoid_replace ((B - (mm - B * r)) * ((1 + r) ^ n - 1))
    with (B * ((1 + r) ^ n - 1) * (1 + r) - mm * ((1 + r) ^ n - 1)) by ring.
  rewrite HB, Hpay. ring.
Qed.

Lemma loop_invariant (months : list nat) (acc B : Q) (j : nat) :
  B * ((1 + r) ^ n - 1) == P * ((1 + r) ^ n - (1 + r) ^ Z.of_nat j) ->
  let st := fold_left (loop_body r mm) months (acc, B) in
  fst st + snd st == acc + B
  /\ snd st * ((1 + r) ^ n - 1)
     == P * ((1 + r) ^ n - (1 + r) ^ Z.of_nat (j + length months)).
Proof.
  revert acc B j. induction months as [|month months IH]; intros acc B j HB.
  - cbn [fold_left fst snd length]. rewrite Nat.add_0_r. split; [reflexivity | exact HB].
  - cbn [fold_left length].
    destruct (loop_body_invariant acc B j month HB) as [Hsum Hbal].
    destruct (loop_body r mm (acc, B) month) as [acc' B'] eqn:Est.
    cbn [fst snd] in Hsum, Hbal.
    destruct (IH acc' B' (S j) Hbal) as [Hsum' Hbal'].
    split.
    + rewrite Hsum'. exact Hsum.
    + rewrite Hbal'. now rewrite Nat.add_succ_r.
Qed.

(** After the twelve months of the loop. *)
Lemma year_one_balance :
  let st := fold_left (loop_body r mm) (seq 0 12) (0, P) in
  fst st == P - snd st
  /\ snd st * ((1 + r) ^ n - 1) == P * ((1 + r) ^ n - (1 + r) ^ 12).
Proof.
  destruct (loop_invariant (seq 0 12) 0 P 0%nat) as [Hsum Hbal].
  - change (Z.of_nat 0) with 0%Z. rewrite Qpower_0_r. ring.
  - cbv zeta. split; [lra | exact Hbal].
Qed.

End Amortisation.

Lemma min_Qmin (a b : Q) : Py.min a b == Qmin a b.
Proof.
  destruct (min_spec a b) as [[H ->]|[H ->]].
  - symmetry. apply Q.min_r. lra.
  - symmetry. apply Q.min_l. exact H.
Qed.

Lemma num_payments_pos (mortgage_years : Z) :
  (0 < mortgage_years)%Z -> 0 < inject_Z (num_payments mortgage_years).
Proof.
  intros H. unfold num_payments.
  change 0 with (inject_Z 0). rewrite <- Zlt_Qlt. lia.
Qed.

(** The zero-rate branch of both mortgage statements. *)
Lemma zero_rate_mortgage (mortgage_amount interest_rate : Q) (mortgage_years : Z) :
  0 < mortgage_amount -> interest_rate == 0 -> (0 < mortgage_years)%Z ->
  let mm := mortgage_amount / inject_Z (mortgage_years * 12) in
  monthly_mortgage mortgage_amount interest_rate mortgage_years = Ok mm
  /\ 0 < mm
  /\ annual_principal_payment mortgage_amount interest_rate mm (annual_mortgage_payments mm)
     = Py.min (mm * 12) mortgage_amount.
Proof.
  intros HP Hr Hy mm.
  pose proof (num_payments_pos _ Hy) as Hn.
  assert (Hg : (monthly_rate interest_rate >? 0) = false).
  { apply gt_irrefl. now apply monthly_rate_zero. }
  split; [|split].
  - unfold monthly_mortgage. rewrite (proj2 (gt_true_iff _ _) HP), Hg.
    apply truediv_ok. intros H. rewrite H in Hn. lra.
  - apply Qlt_shift_div_l; [exact Hn | lra].
  - unfold annual_principal_payment. rewrite Hg, andb_false_r. reflexivity.
Qed.


Lemma sidebar_years_pos (mortgage_years : Z) :
  In mortgage_years [15; 20; 25; 30]%Z -> (1 < mortgage_years)%Z.
Proof. cbn. intros [<-|[<-|[<-|[<-|[]]]]]; reflexivity. Qed.



(** C7. At an annual rate of exactly 0, with a positive principal and a
    positive number of years, the monthly payment is the principal
    divided by [mortgage_years * 12], and the principal paid in the first
    year is the smaller of twelve payments and the principal. *)
Theorem C7_zero_rate_mortgage (mortgage_amount interest_rate : Q) (mortgage_years : Z) :
  0 < mortgage_amount -> interest_rate == 0 -> (0 < mortgage_years)%Z ->
  let mm := mortgage_amount / inject_Z (mortgage_years * 12) in
  monthly_mortgage mortgage_amount interest_rate mortgage_years = Ok mm
  /\ annual_principal_payment mortgage_amount interest_rate mm (annual_mortgage_payments mm)
     == Qmin (12 * mm) mortgage_amount.
Proof.
  intros HP Hz Hy mm.
  destruct (zero_rate_mortgage _ _ _ HP Hz Hy) as (Hm & _ & Ha).
  split; [exact Hm|].
  fold mm in Ha. rewrite Ha, min_Qmin. now rewrite (Qmult_comm mm 12).
Qed.

Lemma C7_zero_rate_mortgage_witness :
  monthly_mortgage 240000 0 20 = Ok (240000 / inject_Z (20 * 12))
  /\ annual_principal_payment 240000 0 (240000 / inject_Z (20 * 12))
       (annual_mortgage_payments (240000 / inject_Z (20 * 12)))
     == Qmin (12 * (240000 / inject_Z (20 * 12))) 240000.
Proof.
  apply (C7_zero_rate_mortgage 240000 0 20); reflexivity.
Defined.

(** ** Comparing the two strategies *)

(** [comparison] is the recommendation of the run. *)
Lemma ran_comparison (i : In.t) (r : Out.t) :
  Ran i r ->
  comparison (In.price i) (In.income_tax_rate i) (Out.total_annual_costs r)
             (Out.annual_long_gross r) (Out.annual_short_gross r)
  = Ok (Out.recommendation r).
Proof.
  intros R. unfold comparison. cbv zeta.
  rewrite <- (ran_annual_long_net_before_tax _ _ R), <- (ran_income_tax_long _ _ R),
    <- (ran_annual_long_after_tax _ _ R), <- (ran_annual_short_net_before_tax _ _ R),
    <- (ran_income_tax_short _ _ R), <- (ran_annual_short_after_tax _ _ R).
  rewrite (ran_yield_long_net _ _ R), (ran_yield_short_net _ _ R). cbn [Py.bind].
  rewrite <- (ran_cash_flow_long _ _ R), <- (ran_cash_flow_short _ _ R).
  now rewrite (ran_recommendation _ _ R).
Qed.

Lemma Qabs_swap (a b : Q) : Qabs (a - b) == Qabs (b - a).
Proof.
  setoid_replace (b - a) with (- (a - b)) by ring. symmetry. apply Qabs_opp.
Qed.

(** C8. Exchanging the two gross annual incomes exchanges the announced
    winner and keeps the two absolute differences. *)
Theorem C8_comparison_symmetric
  (price income_tax_rate total_annual_costs gross_a gross_b : Q) :
  exists rec rec',
    comparison price income_tax_rate total_annual_costs gross_a gross_b = Ok rec
    /\ comparison price income_tax_rate total_annual_costs gross_b gross_a = Ok rec'
    /\ mirrors rec rec'.
Proof.
  unfold comparison. cbv zeta. guarded_statements.
  do 2 eexists. split; [reflexivity|]. split; [reflexivity|].
  unfold annual_short_after_tax, annual_long_after_tax, income_tax_short,
    income_tax_long, annual_short_net_before_tax, annual_long_net_before_tax,
    cash_flow_long, cash_flow_short, yield_difference, income_difference.
  set (a := gross_a - total_annual_costs - _).
  set (b := gross_b - total_annual_costs - _).
  set (ya := if price >? 0 then a / price * 100 else 0).
  set (yb := if price >? 0 then b / price * 100 else 0).
  unfold recommendation, mirrors.
  case_gt yb ya; case_gt ya yb; cbv beta iota;
    try (exfalso; lra);
    repeat split; try reflexivity; apply Qabs_swap.
Qed.

(** ** Net yield against net cash flow *)

(** Dividing by a positive price and multiplying by 100 keeps the
    order. *)
Lemma pct_gt (a b p : Q) : 0 < p -> (a / p * 100 >? b / p * 100) = (a >? b).
Proof.
  intros Hp.
  assert (Hk : 0 < / p * 100).
  { apply Qmult_lt_0_compat; [now apply Qinv_lt_0_compat | reflexivity]. }
  assert (Ha : a / p * 100 == a * (/ p * 100)) by (unfold Qdiv; ring).
  assert (Hb : b / p * 100 == b * (/ p * 100)) by (unfold Qdiv; ring).
  rewrite Ha, Hb.
  apply eq_true_iff_eq. rewrite !gt_true_iff. apply Qmult_lt_r. exact Hk.
Qed.

(** C9. With a positive price, whenever the net yield of one strategy
    exceeds that of the other, its after-tax cash flow is strictly
    greater too; so a strategy announced as more profitable always has
    the strictly greater cash flow, and the cash flow printed for it is
    [max(cash_flow_long, cash_flow_short)]. *)
Theorem C9_winner_has_greater_cash_flow
  (price annual_long_after_tax annual_short_after_tax : Q) :
  0 < price ->
  let cfl := cash_flow_long annual_long_after_tax in
  let cfs := cash_flow_short annual_short_after_tax in
  exists yl ys,
    yield_long_net annual_long_after_tax price = Ok yl
    /\ yield_short_net annual_short_after_tax price = Ok ys
    /\ (yl < ys -> cfl < cfs)
    /\ (ys < yl -> cfs < cfl)
    /\ match recommendation ys yl (yield_difference ys yl)
               (income_difference annual_short_after_tax annual_long_after_tax)
               cfl cfs with
       | ShortTermMoreProfitable _ _ cf => cfl < cfs /\ cf = best_cash_flow cfl cfs
       | LongTermMoreProfitable _ _ cf => cfs < cfl /\ cf = best_cash_flow cfl cfs
       | SimilarProfitability _ _ => True
       end.
Proof.
  intros Hp cfl cfs.
  rewrite yield_long_net_ok, yield_short_net_ok.
  rewrite (proj2 (gt_true_iff _ _) Hp).
  do 2 eexists. split; [reflexivity|]. split; [reflexivity|].
  pose proof (pct_gt annual_short_after_tax annual_long_after_tax price Hp) as Hsl.
  pose proof (pct_gt annual_long_after_tax annual_short_after_tax price Hp) as Hls.
  unfold cfl, cfs, cash_flow_long, cash_flow_short.
  split; [|split].
  - rewrite <- !gt_true_iff. now rewrite Hsl.
  - rewrite <- !gt_true_iff. now rewrite Hls.
  - unfold recommendation, best_cash_flow, Py.max. rewrite Hsl, Hls.
    case_gt annual_short_after_tax annual_long_after_tax.
    + split; [exact E | reflexivity].
    + case_gt annual_long_after_tax annual_short_after_tax.
      * split; [exact E0 | reflexivity].
      * exact I.
Qed.

Lemma C9_winner_has_greater_cash_flow_witness :
  exists yl ys,
    yield_long_net (-11000) 300000 = Ok yl
    /\ yield_short_net (-7000) 300000 = Ok ys
    /\ (yl < ys -> cash_flow_long (-11000) < cash_flow_short (-7000))
    /\ match recommendation ys yl (yield_difference ys yl)
               (income_difference (-7000) (-11000))
               (cash_flow_long (-11000)) (cash_flow_short (-7000)) with
       | ShortTermMoreProfitable _ _ cf =>
           cf = best_cash_flow (cash_flow_long (-11000)) (cash_flow_short (-7000))
       | LongTermMoreProfitable _ _ cf =>
           cf = best_cash_flow (cash_flow_long (-11000)) (cash_flow_short (-7000))
       | SimilarProfitability _ _ => True
       end.
Proof.
  destruct (C9_winner_has_greater_cash_flow 300000 (-11000) (-7000))
    as (yl & ys & Hl & Hs & Hsl & _ & Hrec); [reflexivity|].
  exists yl, ys. split; [exact Hl|]. split; [exact Hs|]. split; [exact Hsl|].
  destruct (recommendation ys yl _ _ _ _); try exact I; apply Hrec.
Defined.

(** ** After-tax cash flow as a function of the gross income *)

Lemma ran_after_tax (i : In.t) (r : Out.t) :
  Ran i r ->
  Out.annual_long_after_tax r
  = long_after_tax_of (Out.annual_long_gross r) (Out.total_annual_costs r)
                      (In.income_tax_rate i)
  /\ Out.annual_short_after_tax r
     = short_after_tax_of (Out.annual_short_gross r) (Out.total_annual_costs r)
                          (In.income_tax_rate i).
Proof.
  intros R. unfold long_after_tax_of, short_after_tax_of. cbv zeta.
  rewrite <- (ran_annual_long_net_before_tax _ _ R), <- (ran_income_tax_long _ _ R),
    <- (ran_annual_short_net_before_tax _ _ R), <- (ran_income_tax_short _ _ R).
  split; [apply (ran_annual_long_after_tax _ _ R) | apply (ran_annual_short_after_tax _ _ R)].
Qed.




(** ** Further properties of the financial statements *)

(** *** Income tax *)

Lemma income_tax_facts (net income_tax_rate : Q) :
  0 <= income_tax_long net income_tax_rate
  /\ 0 <= income_tax_short net income_tax_rate
  /\ annual_long_after_tax net (income_tax_long net income_tax_rate) <= net
  /\ annual_short_after_tax net (income_tax_short net income_tax_rate) <= net
  /\ (net <= 0 -> 0 <= income_tax_rate ->
      income_tax_long net income_tax_rate = 0
      /\ income_tax_short net income_tax_rate = 0).
Proof.
  unfold income_tax_long, income_tax_short, annual_long_after_tax,
    annual_short_after_tax.
  assert (Hloss : net <= 0 -> 0 <= income_tax_rate -> net * (income_tax_rate / 100) <= 0).
  { intros Hn Hr. qlit. nra. }
  remember (net * (income_tax_rate / 100)) as x eqn:Ex. clear Ex.
  destruct (max_spec 0 x) as [[H E]|[H E]]; rewrite E.
  - split; [lra|]. split; [lra|]. split; [lra|]. split; [lra|].
    intros Hn Hr. specialize (Hloss Hn Hr). exfalso. lra.
  - split; [lra|]. split; [lra|]. split; [lra|]. split; [lra|].
    intros _ _. split; reflexivity.
Qed.

(** The tax of either strategy is never negative, so the after-tax cash
    flow never exceeds the net before tax; on a loss, at a non-negative
    rate, nothing is owed and nothing is rebated. *)
Theorem income_tax_never_negative (net income_tax_rate : Q) :
  0 <= income_tax_long net income_tax_rate
  /\ 0 <= income_tax_short net income_tax_rate
  /\ annual_long_after_tax net (income_tax_long net income_tax_rate) <= net
  /\ annual_short_after_tax net (income_tax_short net income_tax_rate) <= net
  /\ (net <= 0 -> 0 <= income_tax_rate ->
      income_tax_long net income_tax_rate = 0
      /\ income_tax_short net income_tax_rate = 0).
Proof. exact (income_tax_facts net income_tax_rate). Qed.

Lemma income_tax_never_negative_witness :
  income_tax_long (-11032.5) 28 = 0 /\ income_tax_short (-11032.5) 28 = 0.
Proof.
  destruct (income_tax_never_negative (-11032.5) 28) as (_ & _ & _ & _ & H).
  apply H; discriminate.
Defined.

(** *** Where the script can raise *)



(** *** The sidebar's ranges *)

Lemma default_inputs_sidebar : sidebar default_inputs.
Proof.
  constructor; cbn; try (split; discriminate).
  right; right; right; left; reflexivity.
Qed.




(** *** No mortgage *)

Lemma ran_percentages (i : In.t) (r : Out.t) :
  Ran i r ->
  let v := In.initial_investment i in
  Out.roi_long r = (if v >? 0 then Out.annual_long_after_tax r / v * 100 else 0)
  /\ Out.roi_short r = (if v >? 0 then Out.annual_short_after_tax r / v * 100 else 0)
  /\ Out.total_roi_long r
     = (if v >? 0
        then total_return_long (Out.annual_long_after_tax r)
               (Out.annual_principal_payment r) / v * 100
        else 0)
  /\ Out.total_roi_short r
     = (if v >? 0
        then total_return_short (Out.annual_short_after_tax r)
               (Out.annual_principal_payment r) / v * 100
        else 0).
Proof.
  intros R v.
  pose proof (ran_roi_long _ _ R) as H1. rewrite roi_long_ok in H1.
  pose proof (ran_roi_short _ _ R) as H2. rewrite roi_short_ok in H2.
  pose proof (ran_total_roi_long _ _ R) as H3. rewrite total_roi_long_ok in H3.
  pose proof (ran_total_roi_short _ _ R) as H4. rewrite total_roi_short_ok in H4.
  injection H1 as H1. injection H2 as H2. injection H3 as H3. injection H4 as H4.
  fold v in H1, H2, H3, H4. auto.
Qed.

(** With a mortgage amount of 0 the script runs to the end whatever the
    other inputs are: the payment and the principal paid are 0, no
    loan-to-value ratio is assigned, and the total return of each strategy
    equals its cash-on-cash return. *)
Theorem run_without_mortgage (i : In.t) :
  In.mortgage_amount i == 0 ->
  exists r, run i = Ok r
    /\ Out.monthly_mortgage r = 0
    /\ Out.annual_principal_payment r == 0
    /\ Out.ltv_ratio r = None
    /\ Out.total_roi_long r == Out.roi_long r
    /\ Out.total_roi_short r == Out.roi_short r.
Proof.
  intros Hz.
  assert (Hg : (In.mortgage_amount i >? 0) = false) by now apply gt_irrefl.
  assert (Hm : monthly_mortgage (In.mortgage_amount i) (In.interest_rate i)
                 (In.mortgage_years i) = Ok 0)
    by (unfold monthly_mortgage; now rewrite Hg).
  assert (Hl : ltv_ratio (In.mortgage_amount i) (In.price i) = Ok None)
    by (unfold ltv_ratio; now rewrite Hg).
  destruct (run_total i 0 None Hm Hl) as [r Hr].
  exists r. split; [exact Hr|].
  pose proof (run_sound _ _ Hr) as R.
  assert (Hmm : Out.monthly_mortgage r = 0).
  { pose proof (ran_monthly_mortgage _ _ R) as H. rewrite Hm in H. now injection H. }
  assert (Ha : Out.annual_principal_payment r == 0).
  { rewrite (ran_annual_principal_payment _ _ R), Hmm.
    unfold annual_principal_payment. rewrite Hg. cbn [andb].
    unfold annual_mortgage_payments.
    destruct (min_spec (0 * 12) (In.mortgage_amount i)) as [[H ->]|[H ->]]; lra. }
  split; [exact Hmm|]. split; [exact Ha|]. split.
  { pose proof (ran_ltv_ratio _ _ R) as H. rewrite Hl in H. now injection H. }
  destruct (ran_percentages _ _ R) as (H1 & H2 & H3 & H4).
  rewrite H1, H2, H3, H4. unfold total_return_long, total_return_short.
  destruct (In.initial_investment i >? 0); [|split; reflexivity].
  rewrite Ha. split; unfold Qdiv; ring.
Qed.

Lemma run_without_mortgage_witness :
  exists r, run (In.mk 300000 1200 80 65 400 300000 0 3.5 30 28 0.8 1.5 800) = Ok r
    /\ Out.monthly_mortgage r = 0
    /\ Out.annual_principal_payment r == 0
    /\ Out.ltv_ratio r = None
    /\ Out.total_roi_long r == Out.roi_long r
    /\ Out.total_roi_short r == Out.roi_short r.
Proof.
  apply (run_without_mortgage (In.mk 300000 1200 80 65 400 300000 0 3.5 30 28 0.8 1.5 800)).
  reflexivity.
Defined.

(** *** The annuity payment at a positive rate *)

(** The positive-rate branch in closed form: the payment, the growth
    factor [(1 + r)^n > 1] and the annuity equation between them. *)
Lemma positive_rate_payment (mortgage_amount interest_rate : Q) (mortgage_years : Z) :
  0 < mortgage_amount -> 0 < interest_rate -> (0 < mortgage_years)%Z ->
  let r := monthly_rate interest_rate in
  let A := (1 + r) ^ num_payments mortgage_years in
  let mm := mortgage_amount * (r * A) / (A - 1) in
  monthly_mortgage mortgage_amount interest_rate mortgage_years = Ok mm
  /\ 0 < r /\ 1 < A
  /\ mm * (A - 1) == mortgage_amount * (r * A)
  /\ annual_principal_payment mortgage_amount interest_rate mm (annual_mortgage_payments mm)
     = fst (fold_left (loop_body r mm) (seq 0 12) (0, mortgage_amount)).
Proof.
  intros HP Hi Hy r A mm.
  pose proof (monthly_rate_pos _ Hi) as Hr. fold r in Hr.
  assert (HA : 1 < A) by (apply Qpower_1_lt; [lra | unfold num_payments; lia]).
  assert (Hnz : ~ A - 1 == 0) by (intros H; lra).
  split; [|split; [exact Hr|split; [exact HA|split]]].
  - unfold monthly_mortgage. fold r. cbv zeta. fold A.
    rewrite (proj2 (gt_true_iff _ _) HP), (proj2 (gt_true_iff _ _) Hr).
    now apply truediv_ok.
  - unfold mm. field. exact Hnz.
  - unfold annual_principal_payment. fold r.
    now rewrite (proj2 (gt_true_iff _ _) HP), (proj2 (gt_true_iff _ _) Hr).
Qed.

Lemma Qmult_pos_cancel (x c : Q) : 0 < c -> 0 < x * c -> 0 < x.
Proof.
  intros Hc H. destruct (Qlt_le_dec 0 x) as [Hx|Hx]; [exact Hx | exfalso].
  assert (0 <= (- x) * c) by (apply Qmult_le_0_compat; lra).
  assert (x * c == - ((- x) * c)) by ring. lra.
Qed.

Lemma year_one_positive_rate_facts
  (mortgage_amount interest_rate : Q) (mortgage_years : Z) :
  0 < mortgage_amount -> 0 < interest_rate -> (0 < mortgage_years)%Z ->
  exists mm,
    monthly_mortgage mortgage_amount interest_rate mortgage_years = Ok mm
    /\ mortgage_amount * monthly_rate interest_rate < mm
    /\ let paid :=
         annual_principal_payment mortgage_amount interest_rate mm
           (annual_mortgage_payments mm) in
       0 < paid
       /\ (mortgage_years = 1%Z -> paid == mortgage_amount)
       /\ ((1 < mortgage_years)%Z -> paid < mortgage_amount).
Proof.
  intros HP Hi Hy.
  destruct (positive_rate_payment _ _ _ HP Hi Hy) as (Hm & Hr & HA & Hpay & Hloop).
  set (r := monthly_rate interest_rate) in *.
  set (n := num_payments mortgage_years) in *.
  set (A := (1 + r) ^ n) in *.
  set (mm := mortgage_amount * (r * A) / (A - 1)) in *.
  exists mm. split; [exact Hm|].
  assert (HPr : 0 < mortgage_amount * r) by (apply Qmult_lt_0_compat; assumption).
  split.
  { assert (0 < mm - mortgage_amount * r); [|lra].
    apply (Qmult_pos_cancel _ (A - 1)); [lra|].
    setoid_replace ((mm - mortgage_amount * r) * (A - 1))
      with (mm * (A - 1) - mortgage_amount * r * (A - 1)) by ring.
    rewrite Hpay. setoid_replace (mortgage_amount * (r * A) - mortgage_amount * r * (A - 1))
      with (mortgage_amount * r) by ring. exact HPr. }
  cbv zeta. rewrite Hloop.
  destruct (year_one_balance mortgage_amount r mm n Hpay) as [Hsum Hbal].
  cbv zeta in Hsum, Hbal. fold A in Hbal. rewrite Hsum.
  set (B := snd _) in *.
  assert (H12 : 1 < (1 + r) ^ 12) by (apply Qpower_1_lt; [lra | lia]).
  split; [|split].
  - assert (0 < mortgage_amount - B); [|lra].
    apply (Qmult_pos_cancel _ (A - 1)); [lra|].
    setoid_replace ((mortgage_amount - B) * (A - 1))
      with (mortgage_amount * (A - 1) - B * (A - 1)) by ring.
    rewrite Hbal.
    setoid_replace (mortgage_amount * (A - 1) - mortgage_amount * (A - (1 + r) ^ 12))
      with (mortgage_amount * ((1 + r) ^ 12 - 1)) by ring.
    apply Qmult_lt_0_compat; lra.
  - intros Hone. assert (HB : B == 0); [|lra].
    assert (HA12 : A == (1 + r) ^ 12) by (unfold A, n, num_payments; now rewrite Hone).
    assert (Hz : B * (A - 1) == 0) by (rewrite Hbal, HA12; ring).
    apply Qmult_integral in Hz. destruct Hz as [Hz|Hz]; [exact Hz | lra].
  - intros Hlong. assert (0 < B); [|lra].
    apply (Qmult_pos_cancel _ (A - 1)); [lra|]. rewrite Hbal.
    apply Qmult_lt_0_compat; [exact HP|].
    assert ((1 + r) ^ 12 < A); [|lra].
    apply Qpower_lt_compat_l; [unfold n, num_payments; lia | lra].
Qed.

(** On every mortgage the sidebar can produce, the monthly payment is
    more than the first month's interest, and the principal repaid by the
    twelve-month loop lies strictly between 0 and the mortgage amount. *)
Theorem year_one_principal_sidebar
  (mortgage_amount interest_rate : Q) (mortgage_years : Z) :
  1 <= mortgage_amount <= 1500000 -> 1 <= interest_rate <= 8 ->
  In mortgage_years [15; 20; 25; 30]%Z ->
  exists mm,
    monthly_mortgage mortgage_amount interest_rate mortgage_years = Ok mm
    /\ mortgage_amount * monthly_rate interest_rate < mm
    /\ 0 < annual_principal_payment mortgage_amount interest_rate mm
             (annual_mortgage_payments mm)
    /\ annual_principal_payment mortgage_amount interest_rate mm
         (annual_mortgage_payments mm) < mortgage_amount.
Proof.
  intros [HP _] [Hr _] Hy. apply sidebar_years_pos in Hy.
  destruct (year_one_positive_rate_facts mortgage_amount interest_rate mortgage_years)
    as (mm & Hm & Hint & Hpos & _ & Hlt); [lra | lra | lia |].
  exists mm. split; [exact Hm|]. split; [exact Hint|]. split; [exact Hpos|].
  apply Hlt. exact Hy.
Qed.

Lemma year_one_principal_sidebar_witness :
  exists mm,
    monthly_mortgage 240000 3.5 30 = Ok mm
    /\ 240000 * monthly_rate 3.5 < mm
    /\ 0 < annual_principal_payment 240000 3.5 mm (annual_mortgage_payments mm)
    /\ annual_principal_payment 240000 3.5 mm (annual_mortgage_payments mm) < 240000.
Proof.
  apply (year_one_principal_sidebar 240000 3.5 30);
    [split; discriminate | split; discriminate |].
  right; right; right; left; reflexivity.
Defined.

(** *** All payments together *)

Lemma inject_Z_succ (k : nat) : inject_Z (Z.of_nat (S k)) == inject_Z (Z.of_nat k) + 1.
Proof. rewrite Nat2Z.inj_succ, <- Z.add_1_r, inject_Z_plus. reflexivity. Qed.

(** Compound growth over [k + 1] periods stays below [k + 1] times the
    interest on the grown amount. *)
Lemma growth_bound (r : Q) (k : nat) :
  0 < r ->
  1 < (1 + r) ^ Z.of_nat (S k)
  /\ (1 + r) ^ Z.of_nat (S k) - 1
     < inject_Z (Z.of_nat (S k)) * r * (1 + r) ^ Z.of_nat (S k).
Proof.
  intros Hr. induction k as [|k [H1 IH]].
  - change (Z.of_nat 1) with 1%Z. rewrite Qpower_1_r. change (inject_Z 1) with 1.
    split; [lra | nra].
  - rewrite (Qpower_succ (1 + r) (S k)), (inject_Z_succ (S k)).
    set (a := (1 + r) ^ Z.of_nat (S k)) in *.
    set (m := inject_Z (Z.of_nat (S k))) in *.
    assert (Hm : 0 <= m).
    { unfold m. change 0 with (inject_Z 0). rewrite <- Zle_Qle. lia. }
    assert (Hra : 0 < r * a) by (apply Qmult_lt_0_compat; lra).
    assert (Hmra : 0 <= m * (r * a)) by (apply Qmult_le_0_compat; lra).
    assert (Hmrar : 0 <= m * (r * a) * r) by (apply Qmult_le_0_compat; lra).
    assert (Hrar : 0 < r * a * r) by (apply Qmult_lt_0_compat; lra).
    split; [nra|].
    setoid_replace ((m + 1) * r * (a * (1 + r)))
      with (m * (r * a) + m * (r * a) * r + r * a + r * a * r) by ring.
    setoid_replace (a * (1 + r) - 1) with ((a - 1) + r * a) by ring.
    setoid_replace (m * r * a) with (m * (r * a)) in IH by ring.
    lra.
Qed.

Lemma positive_rate_total (mortgage_amount interest_rate : Q) (mortgage_years : Z) :
  0 < mortgage_amount -> 0 < interest_rate -> (0 < mortgage_years)%Z ->
  exists mm,
    monthly_mortgage mortgage_amount interest_rate mortgage_years = Ok mm
    /\ mortgage_amount < mm * inject_Z (num_payments mortgage_years).
Proof.
  intros HP Hpos Hy.
  destruct (positive_rate_payment _ _ _ HP Hpos Hy) as (Hm & Hr & HA & Hpay & _).
  set (r := monthly_rate interest_rate) in *.
  set (n := num_payments mortgage_years) in *.
  set (A := (1 + r) ^ n) in *.
  set (mm := mortgage_amount * (r * A) / (A - 1)) in *.
  exists mm. split; [exact Hm|].
  assert (Hn : n = Z.of_nat (S (Z.to_nat n - 1))) by (unfold n, num_payments; lia).
  destruct (growth_bound r (Z.to_nat n - 1) Hr) as [_ Hg].
  rewrite <- Hn in Hg. fold A in Hg.
  assert (0 < mm * inject_Z n - mortgage_amount); [|lra].
  apply (Qmult_pos_cancel _ (A - 1)); [lra|].
  setoid_replace ((mm * inject_Z n - mortgage_amount) * (A - 1))
    with (mm * (A - 1) * inject_Z n - mortgage_amount * (A - 1)) by ring.
  rewrite Hpay.
  setoid_replace (mortgage_amount * (r * A) * inject_Z n - mortgage_amount * (A - 1))
    with (mortgage_amount * (inject_Z n * r * A - (A - 1))) by ring.
  apply Qmult_lt_0_compat; lra.
Qed.

(** On every mortgage the sidebar can produce, the payments of the whole
    term add up to strictly more than the mortgage amount. *)
Theorem payments_exceed_principal
  (mortgage_amount interest_rate : Q) (mortgage_years : Z) :
  1 <= mortgage_amount <= 1500000 -> 1 <= interest_rate <= 8 ->
  In mortgage_years [15; 20; 25; 30]%Z ->
  exists mm,
    monthly_mortgage mortgage_amount interest_rate mortgage_years = Ok mm
    /\ mortgage_amount < mm * inject_Z (num_payments mortgage_years).
Proof.
  intros [HP _] [Hr _] Hy. apply sidebar_years_pos in Hy.
  apply positive_rate_total; [lra | lra | lia].
Qed.

Lemma payments_exceed_principal_witness :
  exists mm,
    monthly_mortgage 240000 3.5 30 = Ok mm
    /\ 240000 < mm * inject_Z (num_payments 30).
Proof.
  apply (payments_exceed_principal 240000 3.5 30);
    [split; discriminate | split; discriminate |].
  right; right; right; left; reflexivity.
Defined.

(** *** The two columns of the recommendation *)

(** Whenever the left column announces a winner, the summary's best
    strategy names the same one; the left column announces short-term
    exactly when the summary does. *)
Theorem columns_name_same_winner (ys yl yd id cfl cfs : Q) :
  match recommendation ys yl yd id cfl cfs with
  | ShortTermMoreProfitable _ _ _ => best_strategy ys yl = Short_term
  | LongTermMoreProfitable _ _ _ => best_strategy ys yl = Long_term
  | SimilarProfitability _ _ => ys == yl
  end
  /\ (best_strategy ys yl = Short_term
      <-> exists a b c, recommendation ys yl yd id cfl cfs = ShortTermMoreProfitable a b c).
Proof.
  unfold recommendation, best_strategy.
  case_gt ys yl.
  - split; [reflexivity|]. split; [intros _; eauto | reflexivity].
  - case_gt yl ys.
    + split; [reflexivity|]. split; [discriminate | intros (a & b & c & H); discriminate].
    + split; [lra|]. split; [discriminate | intros (a & b & c & H); discriminate].
Qed.

(** *** Payback, cash-on-cash return and grade *)

Lemma grade_iff (b : Q) :
  (grade b = Excellent <-> 15 <= b)
  /\ (grade b = Good <-> 10 <= b < 15)
  /\ (grade b = Moderate <-> 5 <= b < 10)
  /\ (grade b = Poor <-> b < 5).
Proof.
  unfold grade. case_ge b 15; [|case_ge b 10; [|case_ge b 5]];
    repeat split; intros; try discriminate; try reflexivity; try lra.
Qed.

Lemma max_scale (a b k : Q) : 0 < k -> Py.max (a * k) (b * k) == Py.max a b * k.
Proof.
  intros Hk. destruct (max_spec a b) as [[H ->]|[H ->]];
    destruct (max_spec (a * k) (b * k)) as [[H' ->]|[H' ->]]; try reflexivity.
  - exfalso. pose proof (proj2 (Qmult_lt_r a b k Hk) H). lra.
  - exfalso. pose proof (proj1 (Qmult_lt_r a b k Hk) H'). lra.
Qed.

(** With a positive initial investment and no strategy in the black the
    payback period is [float('inf')] and the grade is Poor. *)
Theorem no_payback_is_poor
  (initial_investment annual_long_after_tax annual_short_after_tax : Q) :
  0 < initial_investment ->
  best_cash_flow (cash_flow_long annual_long_after_tax)
                 (cash_flow_short annual_short_after_tax) <= 0 ->
  exists rl rs,
    roi_long annual_long_after_tax initial_investment = Ok rl
    /\ roi_short annual_short_after_tax initial_investment = Ok rs
    /\ breakeven_years initial_investment
         (best_cash_flow (cash_flow_long annual_long_after_tax)
                         (cash_flow_short annual_short_after_tax))
       = Ok Inf
    /\ grade (best_roi rl rs) = Poor.
Proof.
  intros Hv Hb. unfold cash_flow_long, cash_flow_short, best_cash_flow in *.
  rewrite roi_long_ok, roi_short_ok, breakeven_years_ok.
  rewrite (proj2 (gt_true_iff _ _) Hv), (proj2 (gt_false_iff _ _) Hb).
  do 2 eexists. split; [reflexivity|]. split; [reflexivity|]. split; [reflexivity|].
  assert (Hk : 0 < / initial_investment * 100).
  { apply Qmult_lt_0_compat; [now apply Qinv_lt_0_compat | reflexivity]. }
  apply grade_iff. unfold best_roi.
  assert (Hroi : Py.max (annual_long_after_tax / initial_investment * 100)
                        (annual_short_after_tax / initial_investment * 100)
                 == Py.max annual_long_after_tax annual_short_after_tax
                    * (/ initial_investment * 100)).
  { rewrite <- (max_scale _ _ _ Hk). apply max_Proper; unfold Qdiv; ring. }
  rewrite Hroi.
  set (best := Py.max _ _) in *. set (k := / initial_investment * 100) in *.
  assert (0 <= (- best) * k) by (apply Qmult_le_0_compat; lra).
  assert (best * k == - ((- best) * k)) by ring. lra.
Qed.

Lemma no_payback_is_poor_witness :
  exists rl rs,
    roi_long (-11000) 60000 = Ok rl /\ roi_short (-7000) 60000 = Ok rs
    /\ breakeven_years 60000
         (best_cash_flow (cash_flow_long (-11000)) (cash_flow_short (-7000)))
       = Ok Inf
    /\ grade (best_roi rl rs) = Poor.
Proof.
  apply (no_payback_is_poor 60000 (-11000) (-7000)); [reflexivity | discriminate].
Defined.

(** *** Gross against net figures *)

Lemma long_short_after_tax_same (gross costs rate : Q) :
  short_after_tax_of gross costs rate = long_after_tax_of gross costs rate.
Proof. reflexivity. Qed.

Lemma after_tax_le_gross (gross costs rate : Q) :
  0 <= costs -> long_after_tax_of gross costs rate <= gross.
Proof.
  intros Hc. unfold long_after_tax_of. cbv zeta.
  destruct (income_tax_facts (annual_long_net_before_tax gross costs) rate)
    as (_ & _ & H & _).
  unfold annual_long_net_before_tax in *. lra.
Qed.

(** With non-negative total annual costs the net yield of a strategy
    never exceeds its gross yield, whatever the price and the tax rate. *)
Theorem net_yield_at_most_gross_yield
  (price income_tax_rate total_annual_costs gross : Q) :
  0 <= total_annual_costs ->
  exists gl nl gs ns,
    yield_long_gross gross price = Ok gl
    /\ yield_long_net (long_after_tax_of gross total_annual_costs income_tax_rate) price
       = Ok nl
    /\ yield_short_gross gross price = Ok gs
    /\ yield_short_net (short_after_tax_of gross total_annual_costs income_tax_rate) price
       = Ok ns
    /\ nl <= gl /\ ns <= gs.
Proof.
  intros Hc.
  change (short_after_tax_of gross total_annual_costs income_tax_rate)
    with (long_after_tax_of gross total_annual_costs income_tax_rate).
  rewrite yield_long_gross_ok, yield_long_net_ok, yield_short_gross_ok,
    yield_short_net_ok.
  do 4 eexists. repeat (split; [reflexivity|]).
  pose proof (after_tax_le_gross gross _ income_tax_rate Hc) as Hle.
  case_gt price 0; [|split; apply Qle_refl].
  assert (Hk : 0 < / price * 100).
  { apply Qmult_lt_0_compat; [now apply Qinv_lt_0_compat | reflexivity]. }
  assert (H : long_after_tax_of gross total_annual_costs income_tax_rate / price * 100
              <= gross / price * 100).
  { unfold Qdiv. rewrite <- !Qmult_assoc. apply Qmult_le_r; assumption. }
  split; exact H.
Qed.

Lemma net_yield_at_most_gross_yield_witness :
  exists gl nl gs ns,
    yield_long_gross 14400 300000 = Ok gl
    /\ yield_long_net (long_after_tax_of 14400 25432.5 28) 300000 = Ok nl
    /\ yield_short_gross 14400 300000 = Ok gs
    /\ yield_short_net (short_after_tax_of 14400 25432.5 28) 300000 = Ok ns
    /\ nl <= gl /\ ns <= gs.
Proof.
  apply (net_yield_at_most_gross_yield 300000 28 25432.5 14400). discriminate.
Defined.

(** *** The recommendation and the gross incomes *)

(** Below a tax rate of 100 the after-tax cash flow grows strictly with
    the net before tax. *)
Lemma after_tax_strictly_monotone (x y t : Q) :
  0 <= t < 1 -> x < y -> x - Py.max 0 (x * t) < y - Py.max 0 (y * t).
Proof.
  intros [Ht0 Ht1] Hxy. unfold Py.max.
  case_gt (x * t) 0; case_gt (y * t) 0.
  - nra.
  - exfalso. nra.
  - nra.
  - lra.
Qed.

Lemma long_after_tax_of_strict (costs rate g g' : Q) :
  0 <= rate < 100 -> g < g' ->
  long_after_tax_of g costs rate < long_after_tax_of g' costs rate.
Proof.
  intros [H0 H1] Hg.
  unfold long_after_tax_of, annual_long_after_tax, income_tax_long,
    annual_long_net_before_tax. cbv zeta.
  apply after_tax_strictly_monotone; [qlit; lra | lra].
Qed.

Lemma long_after_tax_of_Proper (costs rate g g' : Q) :
  g == g' -> long_after_tax_of g costs rate == long_after_tax_of g' costs rate.
Proof.
  intros Hg.
  unfold long_after_tax_of, annual_long_after_tax, income_tax_long,
    annual_long_net_before_tax. cbv zeta. now rewrite Hg.
Qed.

Lemma comparison_follows_gross
  (price income_tax_rate total_annual_costs annual_long_gross annual_short_gross : Q) :
  0 < price -> 0 <= income_tax_rate < 100 ->
  exists rec,
    comparison price income_tax_rate total_annual_costs
               annual_long_gross annual_short_gross = Ok rec
    /\ match rec with
       | ShortTermMoreProfitable _ _ _ => annual_long_gross < annual_short_gross
       | LongTermMoreProfitable _ _ _ => annual_short_gross < annual_long_gross
       | SimilarProfitability _ _ => annual_long_gross == annual_short_gross
       end.
Proof.
  intros Hp Ht.
  unfold comparison. cbv zeta. guarded_statements.
  eexists. split; [reflexivity|].
  fold (long_after_tax_of annual_long_gross total_annual_costs income_tax_rate).
  fold (short_after_tax_of annual_short_gross total_annual_costs income_tax_rate).
  change short_after_tax_of with long_after_tax_of.
  set (al := long_after_tax_of annual_long_gross _ _).
  set (as' := long_after_tax_of annual_short_gross _ _).
  rewrite (proj2 (gt_true_iff _ _) Hp).
  unfold recommendation. rewrite !(pct_gt _ _ price Hp).
  assert (Hcases : annual_long_gross < annual_short_gross
                   \/ annual_long_gross == annual_short_gross
                   \/ annual_short_gross < annual_long_gross).
  { destruct (Q_dec annual_long_gross annual_short_gross) as [[H|H]|H]; auto. }
  destruct Hcases as [H|[H|H]].
  - pose proof (long_after_tax_of_strict total_annual_costs _ _ _ Ht H) as Hs.
    fold al as' in Hs.
    rewrite (proj2 (gt_true_iff as' al) Hs). exact H.
  - pose proof (long_after_tax_of_Proper total_annual_costs income_tax_rate _ _ H) as He.
    fold al as' in He.
    rewrite (gt_irrefl as' al), (gt_irrefl al as') by (rewrite He; reflexivity).
    exact H.
  - pose proof (long_after_tax_of_strict total_annual_costs _ _ _ Ht H) as Hs.
    fold al as' in Hs.
    rewrite (proj2 (gt_false_iff as' al)) by lra.
    rewrite (proj2 (gt_true_iff al as') Hs). exact H.
Qed.

(** With a positive price and an income tax rate in the slider's range,
    from 0 to 50, a strategy announced as more profitable by the left
    column has the strictly greater gross annual income: shared costs and
    tax never reverse the order. *)
Theorem announced_winner_has_greater_gross
  (price income_tax_rate total_annual_costs annual_long_gross annual_short_gross : Q) :
  0 < price -> 0 <= income_tax_rate <= 50 ->
  exists rec,
    comparison price income_tax_rate total_annual_costs
               annual_long_gross annual_short_gross = Ok rec
    /\ match rec with
       | ShortTermMoreProfitable _ _ _ => annual_long_gross < annual_short_gross
       | LongTermMoreProfitable _ _ _ => annual_short_gross < annual_long_gross
       | SimilarProfitability _ _ => True
       end.
Proof.
  intros Hp [Ht0 Ht1].
  destruct (comparison_follows_gross price income_tax_rate total_annual_costs
              annual_long_gross annual_short_gross Hp) as (rec & Hc & Hrec);
    [split; lra|].
  exists rec. split; [exact Hc|]. destruct rec; try exact Hrec. exact I.
Qed.

Lemma announced_winner_has_greater_gross_witness :
  exists rec,
    comparison 300000 28 25432.5 14400 18720 = Ok rec
    /\ match rec with
       | ShortTermMoreProfitable _ _ _ => 14400 < 18720
       | LongTermMoreProfitable _ _ _ => 18720 < 14400
       | SimilarProfitability _ _ => True
       end.
Proof.
  apply (announced_winner_has_greater_gross 300000 28 25432.5 14400 18720);
    [reflexivity | split; discriminate].
Defined.

(** At a tax rate of exactly 100 every profit is taxed away: two
    strategies that both cover the costs are reported as similar, however
    far apart their gross incomes are. *)
Theorem full_tax_levels_profits
  (price total_annual_costs annual_long_gross annual_short_gross : Q) :
  total_annual_costs <= annual_long_gross ->
  total_annual_costs <= annual_short_gross ->
  comparison price 100 total_annual_costs annual_long_gross annual_short_gross
  = Ok (SimilarProfitability
          (long_after_tax_of annual_long_gross total_annual_costs 100)
          (short_after_tax_of annual_short_gross total_annual_costs 100))
  /\ long_after_tax_of annual_long_gross total_annual_costs 100 == 0
  /\ short_after_tax_of annual_short_gross total_annual_costs 100 == 0.
Proof.
  intros Hl Hs.
  assert (Hz : forall g, total_annual_costs <= g ->
                         long_after_tax_of g total_annual_costs 100 == 0).
  { intros g Hg. unfold long_after_tax_of, annual_long_after_tax, income_tax_long,
      annual_long_net_before_tax. cbv zeta.
    change (100 / 100) with (100 * / 100).
    destruct (max_spec 0 ((g - total_annual_costs) * (100 * / 100))) as [[H ->]|[H ->]].
    - field.
    - assert ((g - total_annual_costs) * (100 * / 100) == g - total_annual_costs)
        by field. lra. }
  pose proof (Hz _ Hl) as Hzl. pose proof (Hz _ Hs) as Hzs.
  change short_after_tax_of with long_after_tax_of.
  split; [|split; assumption].
  unfold comparison. cbv zeta. guarded_statements.
  fold (long_after_tax_of annual_long_gross total_annual_costs 100).
  fold (short_after_tax_of annual_short_gross total_annual_costs 100).
  change short_after_tax_of with long_after_tax_of.
  unfold cash_flow_long, cash_flow_short. f_equal.
  apply recommendation_tie.
  destruct (price >? 0); [|reflexivity]. now rewrite Hzl, Hzs.
Qed.

Lemma full_tax_levels_profits_witness :
  comparison 300000 100 10000 14400 18720
  = Ok (SimilarProfitability (long_after_tax_of 14400 10000 100)
                             (short_after_tax_of 18720 10000 100)).
Proof.
  apply (full_tax_levels_profits 300000 10000 14400 18720); discriminate.
Defined.

(** *** Equity building *)

Lemma year_one_principal_pos (mortgage_amount interest_rate mm : Q) (mortgage_years : Z) :
  0 < mortgage_amount -> 0 < interest_rate -> (0 < mortgage_years)%Z ->
  monthly_mortgage mortgage_amount interest_rate mortgage_years = Ok mm ->
  0 < annual_principal_payment mortgage_amount interest_rate mm
        (annual_mortgage_payments mm).
Proof.
  intros HP Hpos Hy Hm.
  destruct (year_one_positive_rate_facts _ _ _ HP Hpos Hy) as (mm' & Hm' & _ & H & _).
  rewrite Hm in Hm'. injection Hm' as <-. exact H.
Qed.

(** In a completed run on sidebar inputs with a mortgage of at least 1,
    the total return of each strategy is strictly greater than its
    cash-on-cash return: the first year's principal counts as return. *)
Theorem total_return_exceeds_cash_on_cash (i : In.t) (r : Out.t) :
  run i = Ok r -> sidebar i -> 1 <= In.mortgage_amount i ->
  Out.roi_long r < Out.total_roi_long r
  /\ Out.roi_short r < Out.total_roi_short r.
Proof.
  intros Hr S HP.
  destruct (sidebar_initial_investment _ S) as [Hv _].
  destruct (sidebar_interest_rate _ S) as [Hi _].
  pose proof (sidebar_years_pos _ (sidebar_mortgage_years _ S)) as Hy.
  pose proof (run_sound _ _ Hr) as R.
  assert (Hpos : 0 < annual_principal_payment (In.mortgage_amount i) (In.interest_rate i)
                       (Out.monthly_mortgage r)
                       (annual_mortgage_payments (Out.monthly_mortgage r))).
  { apply (year_one_principal_pos _ _ _ (In.mortgage_years i));
      [lra | lra | lia | exact (ran_monthly_mortgage _ _ R)]. }
  rewrite <- (ran_annual_principal_payment _ _ R) in Hpos.
  destruct (ran_percentages _ _ R) as (H1 & H2 & H3 & H4). cbv zeta in H1, H2, H3, H4.
  assert (Hv' : 0 < In.initial_investment i) by lra.
  rewrite (proj2 (gt_true_iff _ _) Hv') in H1, H2, H3, H4.
  unfold total_return_long in H3. unfold total_return_short in H4.
  set (v := In.initial_investment i) in *.
  set (p := Out.annual_principal_payment r) in *.
  assert (Hk : 0 < / v * 100).
  { apply Qmult_lt_0_compat; [now apply Qinv_lt_0_compat | reflexivity]. }
  assert (Hp : 0 < p / v * 100).
  { unfold Qdiv. rewrite <- Qmult_assoc. apply Qmult_lt_0_compat; assumption. }
  assert (El : Out.total_roi_long r == Out.roi_long r + p / v * 100).
  { rewrite H1, H3. field. intros H. lra. }
  assert (Es : Out.total_roi_short r == Out.roi_short r + p / v * 100).
  { rewrite H2, H4. field. intros H. lra. }
  split; lra.
Qed.

Lemma total_return_exceeds_cash_on_cash_witness :
  exists r, run default_inputs = Ok r
    /\ Out.roi_long r < Out.total_roi_long r
    /\ Out.roi_short r < Out.total_roi_short r.
Proof.
  destruct monthly_mortgage_default as (mm & Hmm & _).
  destruct (run_total default_inputs mm (Some (240000 / 300000 * 100)) Hmm)
    as [r Hr]; [reflexivity|].
  exists r. split; [exact Hr|].
  apply (total_return_exceeds_cash_on_cash default_inputs r Hr);
    [exact default_inputs_sidebar | discriminate].
Defined.

(** ** Market overview: markers, best and cheapest neighbourhood *)

(** The legend printed under the map reads High (>= 6.5 %), Medium
    (5.5-6.4 %), Low (< 5.5 %).  For a yield with one decimal place, as
    all yields of the table are, the marker colours are exactly these
    bands. *)
Theorem marker_colors_match_legend (yield : Q) (tenths : Z) :
  yield == inject_Z tenths / 10 ->
  (marker_colors yield = ("green", "lightgreen")%string <-> 6.5 <= yield)
  /\ (marker_colors yield = ("orange", "yellow")%string <-> 5.5 <= yield <= 6.4)
  /\ (marker_colors yield = ("red", "lightcoral")%string <-> yield < 5.5).
Proof.
  intros Hd.
  assert (Hk : inject_Z tenths == yield * 10) by (rewrite Hd; field).
  assert (Hgap : yield < 6.5 -> yield <= 6.4).
  { intros H. assert (Hlt : inject_Z tenths < inject_Z 65).
    { rewrite Hk. change (inject_Z 65) with 65. lra. }
    rewrite <- Zlt_Qlt in Hlt.
    assert (Hle : inject_Z tenths <= inject_Z 64) by (rewrite <- Zle_Qle; lia).
    rewrite Hk in Hle. change (inject_Z 64) with 64 in Hle. lra. }
  unfold marker_colors. case_ge yield 6.5; [|case_ge yield 5.5].
  all: repeat split; intros; try discriminate; try reflexivity; lra.
Qed.

Lemma marker_colors_match_legend_witness :
  marker_colors 6.4 = ("orange", "yellow")%string.
Proof.
  destruct (marker_colors_match_legend 6.4 64) as (_ & H & _); [reflexivity|].
  apply H. split; discriminate.
Defined.

Lemma fold_max_spec (s : list Q) (x : Q) :
  let m := fold_left (fun m v => if v >? m then v else m) s x in
  In m (x :: s) /\ forall v, In v (x :: s) -> v <= m.
Proof.
  revert x. induction s as [|y s IH]; intros x; cbn [fold_left].
  - split; [now left|]. intros v [<-|[]]. apply Qle_refl.
  - destruct (IH (if y >? x then y else x)) as [Hin Hmax]. cbv zeta in Hin, Hmax.
    split.
    + destruct Hin as [Hin|Hin]; [|now right; right].
      rewrite <- Hin. destruct (y >? x); [right; now left | now left].
    + intros v Hv.
      assert (Hx : x <= (if y >? x then y else x)) by (case_gt y x; lra).
      assert (Hy : y <= (if y >? x then y else x)) by (case_gt y x; lra).
      destruct Hv as [<-|[<-|Hv]].
      * eapply Qle_trans; [exact Hx|]. apply Hmax. now left.
      * eapply Qle_trans; [exact Hy|]. apply Hmax. now left.
      * apply Hmax. now right.
Qed.

Lemma fold_min_spec (s : list Q) (x : Q) :
  let m := fold_left (fun m v => if m >? v then v else m) s x in
  In m (x :: s) /\ forall v, In v (x :: s) -> m <= v.
Proof.
  revert x. induction s as [|y s IH]; intros x; cbn [fold_left].
  - split; [now left|]. intros v [<-|[]]. apply Qle_refl.
  - destruct (IH (if x >? y then y else x)) as [Hin Hmin]. cbv zeta in Hin, Hmin.
    split.
    + destruct Hin as [Hin|Hin]; [|now right; right].
      rewrite <- Hin. destruct (x >? y); [right; now left | now left].
    + intros v Hv.
      assert (Hx : (if x >? y then y else x) <= x) by (case_gt x y; lra).
      assert (Hy : (if x >? y then y else x) <= y) by (case_gt x y; lra).
      destruct Hv as [<-|[<-|Hv]].
      * eapply Qle_trans; [|exact Hx]. apply Hmin. now left.
      * eapply Qle_trans; [|exact Hy]. apply Hmin. now left.
      * apply Hmin. now right.
Qed.

(** Selecting the rows whose key equals a value that occurs in the key
    column finds one: [.values[0]] is the name of the first such row. *)
Lemma first_row_with_value (key : Row.t -> Q) (df : list Row.t) (m : Q) :
  In m (map key df) ->
  exists pre row post,
    df = pre ++ row :: post
    /\ Pd.values_0 (map Row.neighborhood
                      (filter (fun row => Pd.eq_mask (Some m) (key row)) df))
       = Market.Done (Row.neighborhood row)
    /\ key row == m
    /\ forall r, In r pre -> ~ key r == m.
Proof.
  induction df as [|row df IH]; intros Hin; [destruct Hin|].
  cbn [filter Pd.eq_mask map].
  destruct (Qeq_bool (key row) m) eqn:E.
  - exists [], row, df. cbn [app map Pd.values_0].
    split; [reflexivity|]. split; [reflexivity|].
    split; [now apply Qeq_bool_eq | intros r []].
  - destruct Hin as [Hin|Hin].
    { rewrite Hin, Qeq_bool_refl in E. discriminate. }
    destruct (IH Hin) as (pre & row' & post & -> & Hv & Hk & Hpre).
    exists (row :: pre), row', post. split; [reflexivity|].
    split; [exact Hv|]. split; [exact Hk|].
    intros r [<-|Hr]; [now apply Qeq_bool_neq | now apply Hpre].
Qed.

(** On an empty frame the best-neighbourhood look-up raises
    [IndexError].  On any other frame it succeeds: it returns the name of
    the first row whose yield is the greatest of the frame. *)
Theorem best_neighborhood_first_of_max :
  best_neighborhood [] = Market.Raised Market.IndexError
  /\ forall neighborhood_data : list Row.t,
      neighborhood_data <> [] ->
      exists pre row post m,
        neighborhood_data = pre ++ row :: post
        /\ max_yield neighborhood_data = Some m
        /\ best_neighborhood neighborhood_data = Market.Done (Row.neighborhood row)
        /\ Row.yield row == m
        /\ (forall r, In r neighborhood_data -> Row.yield r <= m)
        /\ (forall r, In r pre -> Row.yield r < m).
Proof.
  split; [reflexivity|]. intros df Hne.
  destruct df as [|r0 df]; [contradiction|].
  unfold best_neighborhood, max_yield, Pd.series_max. cbn [map].
  destruct (fold_max_spec (map Row.yield df) (Row.yield r0)) as [Hin Hmax].
  set (m := fold_left _ _ _) in *.
  destruct (first_row_with_value Row.yield (r0 :: df) m Hin)
    as (pre & row & post & Hdf & Hv & Hk & Hpre).
  exists pre, row, post, m. split; [exact Hdf|]. split; [reflexivity|].
  split; [exact Hv|]. split; [exact Hk|].
  assert (Hall : forall r, In r (r0 :: df) -> Row.yield r <= m).
  { intros r Hr. apply Hmax. change (In (Row.yield r) (map Row.yield (r0 :: df))).
    now apply in_map. }
  split; [exact Hall|].
  intros r Hr.
  assert (Hle : Row.yield r <= m).
  { apply Hall. rewrite Hdf. apply in_or_app. now left. }
  apply Qle_lteq in Hle. destruct Hle as [Hlt|Heq]; [exact Hlt|].
  exfalso. exact (Hpre r Hr Heq).
Qed.

Lemma best_neighborhood_first_of_max_witness :
  exists pre row post m,
    [Row.mk "Alfama" 38.7112 (-9.1304) 5.2 4500;
     Row.mk "Graça" 38.7203 (-9.1324) 6.1 3800;
     Row.mk "Baixa" 38.7101 (-9.1393) 6.1 6200]%string = pre ++ row :: post
    /\ max_yield (pre ++ row :: post) = Some m
    /\ best_neighborhood (pre ++ row :: post) = Market.Done (Row.neighborhood row)
    /\ Row.yield row == m
    /\ (forall r, In r (pre ++ row :: post) -> Row.yield r <= m)
    /\ (forall r, In r pre -> Row.yield r < m).
Proof.
  destruct best_neighborhood_first_of_max as [_ H].
  destruct (H [Row.mk "Alfama" 38.7112 (-9.1304) 5.2 4500;
               Row.mk "Graça" 38.7203 (-9.1324) 6.1 3800;
               Row.mk "Baixa" 38.7101 (-9.1393) 6.1 6200]%string)
    as (pre & row & post & m & Hdf & Hrest); [discriminate|].
  exists pre, row, post, m. rewrite <- Hdf. split; [reflexivity | exact Hrest].
Defined.

(** The cheapest-neighbourhood look-up likewise: [IndexError] on an
    empty frame, otherwise the name of the first row whose average price
    is the least of the frame. *)
Theorem cheapest_neighborhood_first_of_min :
  cheapest_neighborhood [] = Market.Raised Market.IndexError
  /\ forall neighborhood_data : list Row.t,
      neighborhood_data <> [] ->
      exists pre row post m,
        neighborhood_data = pre ++ row :: post
        /\ min_price neighborhood_data = Some m
        /\ cheapest_neighborhood neighborhood_data
           = Market.Done (Row.neighborhood row)
        /\ Row.avg_price row == m
        /\ (forall r, In r neighborhood_data -> m <= Row.avg_price r)
        /\ (forall r, In r pre -> m < Row.avg_price r).
Proof.
  split; [reflexivity|]. intros df Hne.
  destruct df as [|r0 df]; [contradiction|].
  unfold cheapest_neighborhood, min_price, Pd.series_min. cbn [map].
  destruct (fold_min_spec (map Row.avg_price df) (Row.avg_price r0)) as [Hin Hmin].
  set (m := fold_left _ _ _) in *.
  destruct (first_row_with_value Row.avg_price (r0 :: df) m Hin)
    as (pre & row & post & Hdf & Hv & Hk & Hpre).
  exists pre, row, post, m. split; [exact Hdf|]. split; [reflexivity|].
  split; [exact Hv|]. split; [exact Hk|].
  assert (Hall : forall r, In r (r0 :: df) -> m <= Row.avg_price r).
  { intros r Hr. apply Hmin.
    change (In (Row.avg_price r) (map Row.avg_price (r0 :: df))). now apply in_map. }
  split; [exact Hall|].
  intros r Hr.
  assert (Hle : m <= Row.avg_price r).
  { apply Hall. rewrite Hdf. apply in_or_app. now left. }
  apply Qle_lteq in Hle. destruct Hle as [Hlt|Heq]; [exact Hlt|].
  exfalso. apply (Hpre r Hr). now symmetry.
Qed.

Lemma cheapest_neighborhood_first_of_min_witness :
  exists pre row post m,
    [Row.mk "Alfama" 38.7112 (-9.1304) 5.2 4500;
     Row.mk "Graça" 38.7203 (-9.1324) 6.1 3800;
     Row.mk "Baixa" 38.7101 (-9.1393) 6.1 3800]%string = pre ++ row :: post
    /\ min_price (pre ++ row :: post) = Some m
    /\ cheapest_neighborhood (pre ++ row :: post) = Market.Done (Row.neighborhood row)
    /\ Row.avg_price row == m
    /\ (forall r, In r (pre ++ row :: post) -> m <= Row.avg_price r)
    /\ (forall r, In r pre -> m < Row.avg_price r).
Proof.
  destruct cheapest_neighborhood_first_of_min as [_ H].
  destruct (H [Row.mk "Alfama" 38.7112 (-9.1304) 5.2 4500;
               Row.mk "Graça" 38.7203 (-9.1324) 6.1 3800;
               Row.mk "Baixa" 38.7101 (-9.1393) 6.1 3800]%string)
    as (pre & row & post & m & Hdf & Hrest); [discriminate|].
  exists pre, row, post, m. rewrite <- Hdf. split; [reflexivity | exact Hrest].
Defined.

(** Every city the selector offers has an entry, a well-formed frame of
    fifteen neighbourhoods, a best and a cheapest neighbourhood, and a
    regulation text of its own: for none of them does the section raise
    or fall back on the default text. *)
Theorem market_overview_every_city (selected_city : String.string) :
  In selected_city (Market.keys Market.city_data) ->
  exists neighborhood_data best cheapest regulation,
    market_overview selected_city
    = Market.Done (neighborhood_data, best, cheapest, regulation)
    /\ length neighborhood_data = 15%nat
    /\ In (selected_city, regulation) Market.city_regulations
    /\ regulation <> "Check local laws and regulations"%string.
Proof.
  intros Hin. cbn in Hin.
  destruct Hin as [<-|[<-|[<-|[<-|[]]]]].
  all: do 4 eexists; split; [vm_compute; reflexivity|].
  all: split; [reflexivity|]; split; [cbn; tauto | discriminate].
Qed.

Lemma market_overview_every_city_witness :
  exists neighborhood_data regulation,
    market_overview "Lisbon"%string
    = Market.Done (neighborhood_data, "Parque das Nações", "Benfica", regulation)%string
    /\ length neighborhood_data = 15%nat.
Proof.
  destruct (market_overview_every_city "Lisbon"%string)
    as (df & best & cheapest & reg & H & Hlen & _); [now left|].
  exists df, reg. split; [|exact Hlen].
  pose proof H as H'. vm_compute in H'. injection H' as _ Hb Hc _.
  subst best cheapest. exact H.
Defined.

(** ** Evaluations in binary64

    What the script computes in Python's own arithmetic on inputs where
    rounding separates it from the exact reading. *)

Module Binary64.

Import PrimFloat.
Local Open Scope float_scope.


(** C9. Price 300000, rent 780, nightly rate 200 at 13 % occupancy,
    the other inputs at their defaults: the short-term cash flow is
    greater than the long-term one, yet the two net yields are the same
    float and the left column reports similar profitability. *)
Lemma C9_equal_yields_unequal_cash_flows :
  exists r,
    F64.run F64.near_tie_inputs = F64.Ok r
    /\ F64.Out.cash_flow_long r = -16072.487008894117
    /\ F64.Out.cash_flow_short r = -16072.487008894115
    /\ F64.gt (F64.Out.cash_flow_short r) (F64.Out.cash_flow_long r) = true
    /\ F64.Out.yield_short_net r = F64.Out.yield_long_net r
    /\ F64.Out.recommendation r = F64.Similar.
Proof. eexists. vm_compute. repeat split. Qed.


End Binary64.
